(** * Mock-Control-Plane: the resilient executor, the Sony provider and the
      controller's resource handlers, embedded from the Go sources.

    Layout: the embedding comes first (packages [client], [provider] and the
    controller of [cmd]), the theorems about it follow.

    Conventions of the embedding
    - a Go [int], [int64] or [time.Duration] is a [Z]; where the source
      can overflow, the 64-bit wrap-around is written out with [wrap64];
    - a Go [error] is its [Error()] text; [nil] is [None];
    - everything the program observes from outside (the vendor's answers, the
      cancellation of the context, the wall clock, [encoding/json] and
      [net/url]) is an explicit argument: an [Env] per outbound call, a
      [Clock] per request, a [Runtime] for the library functions;
    - every outbound effect is recorded in a trace of [Event]s. *)

From stdpp Require Import gmap strings list fin_maps pretty.
From Stdlib Require Import ZArith Lia.
Local Open Scope Z_scope.

(** ** Machine integers and durations *)

(** Two's complement reading of the low 64 bits, the value an [int64]
    operation yields after overflow. *)
Definition wrap64 (z : Z) : Z := (z + 2 ^ 63) mod 2 ^ 64 - 2 ^ 63.

Module time.
(** [time.Duration] counts nanoseconds in an [int64]. *)
Definition Millisecond : Z := 1000000.
Definition Second : Z := 1000000000.
End time.

(** ** HTTP values *)

Inductive Result (A : Type) : Type :=
| Ok (a : A)
| Err (e : string).
Arguments Ok {A} a.
Arguments Err {A} e.

Record Request : Type := mkRequest {
  Method : string;
  URL : string;
  Header : list (string * string);
  ReqBody : option string
}.

(** A received response: its status code and what [io.ReadAll(resp.Body)]
    yields (reading the body can still fail after the headers arrived). *)
Record Response : Type := mkResponse {
  StatusCode : Z;
  Body : Result string
}.

(** The two outcomes of [client.Do]: a transport error (the response is
    [nil]) or a received response (the error is [nil]). *)
Inductive DoResult : Type :=
| DoErr (e : string)
| DoResp (r : Response).

Inductive ProviderOp : Type := OpCreate | OpRead | OpUpdate | OpDelete.

Inductive Event : Type :=
| EvDo (attempt : Z) (req : Request)      (* client.Do(reqClone) *)
| EvCloseBody (attempt : Z)               (* resp.Body.Close() before a retry *)
| EvBackoff (attempt : Z) (d : Z)         (* select on time.After(d) / ctx.Done() *)
| EvCall (op : ProviderOp) (arg : string) (* a handler invokes a provider method *).

(** What one call of [DoWithRetry] meets, attempt by attempt. *)
Record Env : Type := mkEnv {
  ctxDoneBefore : Z -> bool;    (* ctx.Done() is ready at the check opening attempt n *)
  clientDo : Z -> DoResult;     (* what client.Do returns at attempt n *)
  ctxDoneInBackoff : Z -> bool; (* ctx.Done() wins the select after attempt n *)
  ctxErr : string               (* ctx.Err().Error() *)
}.

(** ** package client *)

Module client.

(** [time.Duration(1<<uint(attempt)) * 100 * time.Millisecond], capped:
    the constant 1 takes the type [time.Duration], so the shift and both
    products are [int64] operations; [attempt] is never negative in the loop,
    so [uint(attempt)] is [attempt]. *)
Definition backoffDelay (attempt : Z) : Z :=
  let d := wrap64 (wrap64 (wrap64 (Z.shiftl 1 attempt) * 100) * time.Millisecond) in
  if d >? 5 * time.Second then 5 * time.Second else d.

Definition Outcome : Type := (option Response * option string) * list Event.

Definition emit (evs : list Event) (o : option Outcome) : option Outcome :=
  match o with
  | Some (r, tr) => Some (r, evs ++ tr)
  | None => None
  end.

(** The statements after the loop, on the variables [resp] and [lastErr]. *)
Definition afterLoop (maxRetries : Z) (resp : option Response)
    (lastErr : option string) : option Response * option string :=
  match lastErr with
  | Some e =>
      (None, Some ("request failed after " +:+ pretty maxRetries +:+ " retries: " +:+ e))
  | None =>
      match resp with
      | Some r =>
          if StatusCode r >=? 500
          then (resp, Some ("request failed after " +:+ pretty maxRetries +:+
                            " retries with status " +:+ pretty (StatusCode r)))
          else (resp, lastErr)
      | None => (resp, lastErr)
      end
  end.

(** [lastErr == nil && resp.StatusCode < 500] *)
Definition received_ok (resp : option Response) (lastErr : option string) : bool :=
  match lastErr, resp with
  | None, Some r => StatusCode r <? 500
  | _, _ => false
  end.

(** The logging step before a retry closes the body of a received
    response: [if lastErr != nil {...} else if resp != nil {... Close()}]. *)
Definition closeBefore (attempt : Z) (resp : option Response)
    (lastErr : option string) : list Event :=
  match lastErr, resp with
  | None, Some _ => [EvCloseBody attempt]
  | _, _ => []
  end.

(** The [for attempt := 0; attempt <= maxRetries; attempt++] loop, entered
    at [attempt] with the current [resp] and [lastErr].  [fuel] bounds the
    number of iterations; [None] means the fuel ran out.  The increment is
    only reached with [attempt < maxRetries], so it cannot overflow. *)
Fixpoint retryLoop (fuel : nat) (env : Env) (req : Request) (maxRetries : Z)
    (attempt : Z) (resp : option Response) (lastErr : option string)
    : option Outcome :=
  match fuel with
  | O => None
  | S fuel' =>
      if attempt <=? maxRetries then
        if ctxDoneBefore env attempt then
          Some ((None, Some ("request cancelled: " +:+ ctxErr env)), [])
        else
          let '(resp, lastErr) :=
            match clientDo env attempt with
            | DoErr e => (None, Some e)
            | DoResp r => (Some r, None)
            end in
          emit [EvDo attempt req]
            (if received_ok resp lastErr then Some ((resp, None), [])
             else if attempt =? maxRetries
             then Some (afterLoop maxRetries resp lastErr, [])
             else
               emit (closeBefore attempt resp lastErr
                     ++ [EvBackoff attempt (backoffDelay attempt)])
                 (if ctxDoneInBackoff env attempt
                  then Some ((None, Some ("request cancelled during backoff: "
                                          +:+ ctxErr env)), [])
                  else retryLoop fuel' env req maxRetries (attempt + 1) resp lastErr))
      else Some (afterLoop maxRetries resp lastErr, [])
  end.

(** Iterations the loop can need: one per attempt [0..maxRetries], plus the
    test that fails when [maxRetries] is negative. *)
Definition loopFuel (maxRetries : Z) : nat := S (Z.to_nat (maxRetries + 1)).

(** [DoWithRetry]: the loop run from attempt 0 with both variables [nil].
    [loopFuel] always suffices ([DoWithRetry_fuel] below), so the default
    of the [match] is never taken. *)
Definition DoWithRetry (env : Env) (req : Request) (maxRetries : Z) : Outcome :=
  match retryLoop (loopFuel maxRetries) env req maxRetries 0 None None with
  | Some o => o
  | None => ((None, None), [])
  end.

(** HTTP attempts issued, read off a trace. *)
Definition attempts (tr : list Event) : list Z :=
  omap (fun ev => match ev with EvDo n _ => Some n | _ => None end) tr.

End client.

(** ** package models *)

(** The declarations of [models.ForgeResource], [models.ResourceSpec] and
    [models.ResourceStatus] are not among the sources.  The three records
    below carry the fields of section 3 of the specification under the names
    the handlers and the provider use for them.  A [time.Time] is its
    [UnixNano] reading, [None] for the zero time. *)

(** A value of the open-ended [Config] map, as the provider's extractors
    tell them apart. *)
Inductive ConfigValue : Type :=
| CfgString (s : string)
| CfgNumber (n : Z)
| CfgBool (b : bool).

(** Modelled from the spec: the declaration of [models.ResourceSpec] is
    missing.  Kept are the mandatory [VendorType] selector and the open-ended
    [Config]; the other desired-state fields reach nothing but the body of
    the vendor request. *)
Record ResourceSpec : Type := mkSpec {
  VendorType : string;
  Config : list (string * ConfigValue)
}.

(** Modelled from the spec: the declaration of [models.ResourceStatus] is
    missing.  The fields are the observed-state projection of section 3, with
    the names [buildResourceStatus] and [Read] assign to. *)
Record ResourceStatus : Type := mkStatus {
  Phase : string;
  Message : string;
  VendorID : string;
  HealthStatus : string;
  ErrorCount : Z;
  LastHealthCheck : option Z;
  LastSuccessfulOperation : option Z;
  CurrentBitrate : Z;
  DroppedFrames : Z;
  ConnectionCount : Z;
  Uptime : Z
}.

(** Modelled from the spec: the declaration of [models.ForgeResource] is
    missing.  The fields are those of the ResourceRecord of section 3; the Go
    field [Type] is [Type_] here. *)
Record ForgeResource : Type := mkResource {
  ID : string;
  Type_ : string;
  Name : string;
  Namespace : string;
  Spec : ResourceSpec;
  Status : ResourceStatus;
  CreatedAt : option Z;
  UpdatedAt : option Z
}.

(** The fields of [models.SonyStreamStatus] and [models.SonyDeviceResponse]
    that [buildResourceStatus] reads. *)
Record SonyStreamStatus : Type := mkStream {
  StreamCurrentBitrate : Z;
  StreamDroppedFrames : Z;
  UptimeSeconds : Z;
  ViewerCount : Z
}.

Record SonyDeviceResponse : Type := mkSonyResponse {
  DeviceID : string;
  SonyStatus : string;
  SonyMessage : string;
  StreamStatus : option SonyStreamStatus
}.

(** Field updates, as the assignments of the source. *)
Definition set_ID (id : string) (r : ForgeResource) : ForgeResource :=
  mkResource id (Type_ r) (Name r) (Namespace r) (Spec r) (Status r)
             (CreatedAt r) (UpdatedAt r).
Definition set_CreatedAt (t : Z) (r : ForgeResource) : ForgeResource :=
  mkResource (ID r) (Type_ r) (Name r) (Namespace r) (Spec r) (Status r)
             (Some t) (UpdatedAt r).
Definition set_UpdatedAt (t : Z) (r : ForgeResource) : ForgeResource :=
  mkResource (ID r) (Type_ r) (Name r) (Namespace r) (Spec r) (Status r)
             (CreatedAt r) (Some t).
Definition set_Status (st : ResourceStatus) (r : ForgeResource) : ForgeResource :=
  mkResource (ID r) (Type_ r) (Name r) (Namespace r) (Spec r) st
             (CreatedAt r) (UpdatedAt r).
Definition set_Phase (p : string) (st : ResourceStatus) : ResourceStatus :=
  mkStatus p (Message st) (VendorID st) (HealthStatus st) (ErrorCount st)
           (LastHealthCheck st) (LastSuccessfulOperation st) (CurrentBitrate st)
           (DroppedFrames st) (ConnectionCount st) (Uptime st).
Definition set_Message (m : string) (st : ResourceStatus) : ResourceStatus :=
  mkStatus (Phase st) m (VendorID st) (HealthStatus st) (ErrorCount st)
           (LastHealthCheck st) (LastSuccessfulOperation st) (CurrentBitrate st)
           (DroppedFrames st) (ConnectionCount st) (Uptime st).

(** ** The world outside the program *)

(** The places where a request reads [time.Now()]; each is passed at most
    once while a request is served. *)
Inductive ClockSite : Type :=
| AtResourceID                (* generateResourceID *)
| AtCreatedAt                 (* resource.CreatedAt = time.Now() *)
| AtUpdatedAt                 (* resource.UpdatedAt = time.Now() *)
| AtLastHealthCheck           (* status.LastHealthCheck = time.Now() *)
| AtLastSuccessfulOperation.  (* status.LastSuccessfulOperation = time.Now() *)

(** The [UnixNano] reading of the wall clock at each site of one request. *)
Definition Clock : Type := ClockSite -> Z.

(** The library functions the provider calls. *)
Class Runtime : Type := {
  (* the error of url.Parse inside http.NewRequestWithContext, if any *)
  urlParseError : string -> option string;
  (* json.Marshal(s.buildSonyRequest(resource)) *)
  marshalSonyRequest : ForgeResource -> Result string;
  (* json.Unmarshal(respBody, &sonyResponse) *)
  unmarshalSonyResponse : string -> Result SonyDeviceResponse
}.

Definition NewRequestWithContext `{Runtime} (method url : string)
    (body : option string) : Result Request :=
  match urlParseError url with
  | Some e => Err e
  | None => Ok (mkRequest method url [] body)
  end.

(** The bytes of an HTTP token, the only ones a header key is canonicalised
    over: letters, digits and the marks of [net/textproto]'s token table. *)
Definition validHeaderFieldByte (c : Ascii.ascii) : bool :=
  let n := Ascii.nat_of_ascii c in
  ((48 <=? n) && (n <=? 57))%nat || ((65 <=? n) && (n <=? 90))%nat
  || ((97 <=? n) && (n <=? 122))%nat
  || bool_decide (n ∈ [33; 35; 36; 37; 38; 39; 42; 43; 45; 46; 94; 95; 96; 124; 126]%nat).

(** The second loop of [canonicalMIMEHeaderKey]: the first letter and every
    letter after a hyphen in upper case, the other letters in lower case. *)
Fixpoint canonicalLetters (upper : bool) (key : string) : string :=
  match key with
  | EmptyString => EmptyString
  | String c rest =>
      let n := Ascii.nat_of_ascii c in
      let c' :=
        if upper && (97 <=? n)%nat && (n <=? 122)%nat then Ascii.ascii_of_nat (n - 32)
        else if negb upper && (65 <=? n)%nat && (n <=? 90)%nat
             then Ascii.ascii_of_nat (n + 32)
        else c in
      String c' (canonicalLetters (Ascii.eqb c' (Ascii.ascii_of_nat 45)) rest)
  end.

(** [textproto.CanonicalMIMEHeaderKey]: a key with a byte outside the token
    table (a space included) is returned unchanged. *)
Definition CanonicalMIMEHeaderKey (key : string) : string :=
  if forallb validHeaderFieldByte (String.list_ascii_of_string key)
  then canonicalLetters true key
  else key.

(** [req.Header.Set(k, v)]: the value replaces whatever the canonical form
    of [k] held.  The header is kept as a list in the order of the calls. *)
Definition Header_Set (k v : string) (req : Request) : Request :=
  let key := CanonicalMIMEHeaderKey k in
  mkRequest (Method req) (URL req)
            (filter (fun kv => fst kv <> key) (Header req) ++ [(key, v)])
            (ReqBody req).

(** ** package provider *)

Module provider.

(** The [VendorProvider] interface, as the record of its four resource
    methods ([HealthCheck], which no resource handler calls, is left out).
    A method receives the [Env]
    of the outbound call it makes and returns its trace.  The Go pair of a
    status pointer and an error is read as a [Result]: every [return] of
    the implementation sets exactly one of the two. *)
Record VendorProvider : Type := mkProvider {
  Create : Env -> Clock -> ForgeResource -> Result ResourceStatus * list Event;
  Read : Env -> Clock -> string -> Result ResourceStatus * list Event;
  Update : Env -> Clock -> ForgeResource -> Result ResourceStatus * list Event;
  Delete : Env -> string -> option string * list Event
}.

Record SonyProvider : Type := mkSony {
  BaseURL : string;
  APIKey : string
}.

Definition NewSonyProvider (baseURL apiKey : string) : SonyProvider :=
  mkSony baseURL apiKey.

(** The text of the run-time panic that dereferencing a [nil] response
    raises.  [DoWithRetry] with 3 retries never returns [(nil, nil)]
    ([DoWithRetry_nil_nil] below), so no call reaches it. *)
Definition nilDeref : string :=
  "runtime error: invalid memory address or nil pointer dereference".

Module Sony.

Definition buildResourceStatus (clk : Clock) (response : SonyDeviceResponse)
    : ResourceStatus :=
  let '(phase, health, errors) :=
    if decide (SonyStatus response = "active") then ("Running", "healthy", 0)
    else if decide (SonyStatus response = "inactive") then ("Pending", "unknown", 0)
    else if decide (SonyStatus response = "provisioning")
         then ("Provisioning", "unknown", 0)
    else if decide (SonyStatus response = "error") then ("Failed", "unhealthy", 1)
    else if decide (SonyStatus response = "maintenance")
         then ("Updating", "degraded", 0)
    else ("Unknown", "unknown", 0) in
  let '(bitrate, dropped, conns, uptime) :=
    match StreamStatus response with
    | Some ss =>
        (wrap64 (StreamCurrentBitrate ss * 1000), StreamDroppedFrames ss,
         ViewerCount ss,
         if UptimeSeconds ss >? 0 then wrap64 (UptimeSeconds ss * time.Second) else 0)
    | None => (0, 0, 0, 0)
    end in
  {| Phase := phase; Message := SonyMessage response; VendorID := DeviceID response;
     HealthStatus := health; ErrorCount := errors;
     LastHealthCheck := Some (clk AtLastHealthCheck);
     LastSuccessfulOperation := Some (clk AtLastSuccessfulOperation);
     CurrentBitrate := bitrate; DroppedFrames := dropped;
     ConnectionCount := conns; Uptime := uptime |}.

Definition statusError (r : Response) (respBody : string) : string :=
  "Sony API returned status " +:+ pretty (StatusCode r) +:+ ": " +:+ respBody.

(** Steps 7 and 8 of [Create], shared by [Read] and [Update]. *)
Definition parseStatus `{Runtime} (clk : Clock) (respBody : string)
    : Result ResourceStatus :=
  match unmarshalSonyResponse respBody with
  | Err e => Err ("failed to parse Sony API response: " +:+ e)
  | Ok sonyResponse => Ok (buildResourceStatus clk sonyResponse)
  end.

Definition Create `{Runtime} (s : SonyProvider) (env : Env) (clk : Clock)
    (resource : ForgeResource) : Result ResourceStatus * list Event :=
  match marshalSonyRequest resource with
  | Err e => (Err ("failed to marshal Sony request: " +:+ e), [])
  | Ok requestBody =>
      let url := BaseURL s +:+ "/devices" in
      match NewRequestWithContext "POST" url (Some requestBody) with
      | Err e => (Err ("failed to create HTTP request: " +:+ e), [])
      | Ok req =>
          let req := Header_Set "Content-Type" "application/json" req in
          let req := Header_Set "Authorization" ("Bearer " +:+ APIKey s) req in
          let req := Header_Set "Accept" "application/json" req in
          let req := Header_Set "X-Forge-Resource-ID" (ID resource) req in
          let '((resp, err), tr) := client.DoWithRetry env req 3 in
          match err, resp with
          | Some e, _ => (Err ("failed to execute Sony API request: " +:+ e), tr)
          | None, None => (Err nilDeref, tr)
          | None, Some r =>
              match Body r with
              | Err e => (Err ("failed to read Sony API response: " +:+ e), tr)
              | Ok respBody =>
                  if negb (StatusCode r =? 201) && negb (StatusCode r =? 200)
                  then (Err (statusError r respBody), tr)
                  else (parseStatus clk respBody, tr)
              end
          end
      end
  end.

Definition Read `{Runtime} (s : SonyProvider) (env : Env) (clk : Clock)
    (vendorID : string) : Result ResourceStatus * list Event :=
  let url := BaseURL s +:+ "/devices/" +:+ vendorID in
  match NewRequestWithContext "GET" url None with
  | Err e => (Err ("failed to create HTTP request: " +:+ e), [])
  | Ok req =>
      let req := Header_Set "Authorization" ("Bearer " +:+ APIKey s) req in
      let req := Header_Set "Accept" "application/json" req in
      let '((resp, err), tr) := client.DoWithRetry env req 3 in
      match err, resp with
      | Some e, _ => (Err ("failed to execute Sony API request: " +:+ e), tr)
      | None, None => (Err nilDeref, tr)
      | None, Some r =>
          match Body r with
          | Err e => (Err ("failed to read Sony API response: " +:+ e), tr)
          | Ok respBody =>
              if StatusCode r =? 404
              then (Ok {| Phase := "Failed";
                          Message := "Device not found in Sony system";
                          VendorID := vendorID;
                          HealthStatus := "unhealthy";
                          ErrorCount := 0;
                          LastHealthCheck := None;
                          LastSuccessfulOperation := None;
                          CurrentBitrate := 0; DroppedFrames := 0;
                          ConnectionCount := 0; Uptime := 0 |}, tr)
              else if negb (StatusCode r =? 200)
              then (Err (statusError r respBody), tr)
              else (parseStatus clk respBody, tr)
          end
      end
  end.

Definition Update `{Runtime} (s : SonyProvider) (env : Env) (clk : Clock)
    (resource : ForgeResource) : Result ResourceStatus * list Event :=
  if decide (VendorID (Status resource) = "")
  then (Err "cannot update resource without vendor ID", [])
  else
    match marshalSonyRequest resource with
    | Err e => (Err ("failed to marshal Sony request: " +:+ e), [])
    | Ok requestBody =>
        let url := BaseURL s +:+ "/devices/" +:+ VendorID (Status resource) in
        match NewRequestWithContext "PATCH" url (Some requestBody) with
        | Err e => (Err ("failed to create HTTP request: " +:+ e), [])
        | Ok req =>
            let req := Header_Set "Content-Type" "application/json" req in
            let req := Header_Set "Authorization" ("Bearer " +:+ APIKey s) req in
            let req := Header_Set "Accept" "application/json" req in
            let req := Header_Set "X-Forge-Resource-ID" (ID resource) req in
            let '((resp, err), tr) := client.DoWithRetry env req 3 in
            match err, resp with
            | Some e, _ => (Err ("failed to execute Sony API request: " +:+ e), tr)
            | None, None => (Err nilDeref, tr)
            | None, Some r =>
                match Body r with
                | Err e => (Err ("failed to read Sony API response: " +:+ e), tr)
                | Ok respBody =>
                    if negb (StatusCode r =? 200)
                    then (Err (statusError r respBody), tr)
                    else (parseStatus clk respBody, tr)
                end
            end
        end
    end.

(** In the [default] case the body is read with its error dropped
    ([respBody, _ := io.ReadAll(resp.Body)]): the text is then what was
    read before the failure, taken as empty here. *)
Definition Delete `{Runtime} (s : SonyProvider) (env : Env) (vendorID : string)
    : option string * list Event :=
  let url := BaseURL s +:+ "/devices/" +:+ vendorID in
  match NewRequestWithContext "DELETE" url None with
  | Err e => (Some ("failed to create HTTP request: " +:+ e), [])
  | Ok req =>
      let req := Header_Set "Authorization" ("Bearer " +:+ APIKey s) req in
      let '((resp, err), tr) := client.DoWithRetry env req 3 in
      match err, resp with
      | Some e, _ => (Some ("failed to execute Sony API request: " +:+ e), tr)
      | None, None => (Some nilDeref, tr)
      | None, Some r =>
          if (StatusCode r =? 204) || (StatusCode r =? 200) || (StatusCode r =? 404)
          then (None, tr)
          else
            let respBody := match Body r with Ok b => b | Err _ => "" end in
            (Some (statusError r respBody), tr)
      end
  end.

End Sony.

(** [SonyProvider] as a [VendorProvider]. *)
Definition SonyVendorProvider `{Runtime} (s : SonyProvider) : VendorProvider :=
  {| Create := Sony.Create s; Read := Sony.Read s;
     Update := Sony.Update s; Delete := Sony.Delete s |}.

End provider.

(** ** The controller (cmd) *)

Module controller.
Import provider.

(** [Controller]: the provider table and the in-memory store.  The store
    holds pointers in the source; a handler that changes a stored record
    writes the same pointer back, which is the [Put] below. *)
Record Controller : Type := mkController {
  Providers : gmap string VendorProvider;
  ResourceDB : gmap string ForgeResource
}.

(** [NewController], given the two settings read from the environment. *)
Definition NewController `{Runtime} (envURL envKey : string) : Controller :=
  let sonyBaseURL := if decide (envURL = "") then "http://localhost:9000" else envURL in
  let sonyAPIKey := if decide (envKey = "") then "test-api-key" else envKey in
  {| Providers := {[ "sony" := SonyVendorProvider (NewSonyProvider sonyBaseURL sonyAPIKey) ]};
     ResourceDB := ∅ |}.

Inductive ResponseBody : Type :=
| NoBody
| ErrorBody (msg : string)              (* {"error": msg} *)
| ResourceBody (resource : ForgeResource).

Record HTTPResponse : Type := mkHTTP {
  Code : Z;
  Payload : ResponseBody
}.

(** What a handler does to the store inside its [c.mu.Lock()] section. *)
Inductive StoreWrite : Type :=
| Put (id : string) (resource : ForgeResource)
| Remove (id : string).

(** A handler looks the store up once (under the read lock), talks to the
    vendor with no lock held, and then writes at most once (under the write
    lock): its result is the response, the write it performs and the trace
    of its vendor calls. *)
Record Handled : Type := mkHandled {
  response : HTTPResponse;
  write : option StoreWrite;
  trace : list Event
}.

Definition reply (code : Z) (msg : string) : Handled :=
  {| response := mkHTTP code (ErrorBody msg); write := None; trace := [] |}.

Definition commit (w : option StoreWrite) (db : gmap string ForgeResource)
    : gmap string ForgeResource :=
  match w with
  | None => db
  | Some (Put id resource) => <[id := resource]> db
  | Some (Remove id) => delete id db
  end.

(** [fmt.Sprintf("res-%d", time.Now().UnixNano())], given the clock reading. *)
Definition generateResourceID (now : Z) : string := "res-" +:+ pretty now.

(** [decoded] is what [json.NewDecoder(r.Body).Decode(&resource)] yields. *)
Definition HandleCreateResource (c : Controller) (decoded : Result ForgeResource)
    (clk : Clock) (env : Env) : Handled :=
  match decoded with
  | Err e => reply 400 ("invalid JSON: " +:+ e)
  | Ok resource =>
      if decide (Name resource = "") then reply 400 "name is required"
      else if decide (Type_ resource = "") then reply 400 "type is required"
      else if decide (VendorType (Spec resource) = "")
      then reply 400 "vendor_type is required"
      else
        let resource := set_ID (generateResourceID (clk AtResourceID)) resource in
        let resource := set_CreatedAt (clk AtCreatedAt) resource in
        let resource := set_UpdatedAt (clk AtUpdatedAt) resource in
        let resource := set_Status (set_Phase "Pending" (Status resource)) resource in
        let resource :=
          set_Status (set_Message "Resource creation initiated" (Status resource))
                     resource in
        match Providers c !! VendorType (Spec resource) with
        | None => reply 400 ("unsupported vendor: " +:+ VendorType (Spec resource))
        | Some selectedProvider =>
            let '(res, tr) := Create selectedProvider env clk resource in
            let resource :=
              match res with
              | Err e =>
                  let resource :=
                    set_Status (set_Phase "Failed" (Status resource)) resource in
                  set_Status (set_Message ("Vendor API error: " +:+ e) (Status resource))
                             resource
              | Ok status => set_Status status resource
              end in
            {| response := mkHTTP 201 (ResourceBody resource);
               write := Some (Put (ID resource) resource);
               trace := EvCall OpCreate (ID resource) :: tr |}
        end
  end.

Definition HandleGetResource (c : Controller) (resourceID : string)
    (clk : Clock) (env : Env) : Handled :=
  if decide (resourceID = "") then reply 400 "resource ID is required"
  else
    match ResourceDB c !! resourceID with
    | None => reply 404 "resource not found"
    | Some resource =>
        let vendorType := VendorType (Spec resource) in
        match Providers c !! vendorType with
        | None => reply 500 "provider not configured"
        | Some selectedProvider =>
            if decide (VendorID (Status resource) = "")
            then {| response := mkHTTP 200 (ResourceBody resource);
                    write := None; trace := [] |}
            else
              let '(res, tr) :=
                Read selectedProvider env clk (VendorID (Status resource)) in
              let tr := EvCall OpRead (VendorID (Status resource)) :: tr in
              match res with
              | Err e =>
                  {| response := mkHTTP 200 (ResourceBody resource);
                     write := None; trace := tr |}
              | Ok status =>
                  let resource := set_Status status resource in
                  let resource := set_UpdatedAt (clk AtUpdatedAt) resource in
                  {| response := mkHTTP 200 (ResourceBody resource);
                     write := Some (Put resourceID resource); trace := tr |}
              end
        end
    end.

Definition HandleDeleteResource (c : Controller) (resourceID : string)
    (env : Env) : Handled :=
  if decide (resourceID = "") then reply 400 "resource ID is required"
  else
    match ResourceDB c !! resourceID with
    | None => reply 404 "resource not found"
    | Some resource =>
        match Providers c !! VendorType (Spec resource) with
        | None => reply 500 "provider not configured"
        | Some selectedProvider =>
            let '(err, tr) :=
              if decide (VendorID (Status resource) = "") then (None, [])
              else
                let '(err, tr) :=
                  Delete selectedProvider env (VendorID (Status resource)) in
                (err, EvCall OpDelete (VendorID (Status resource)) :: tr) in
            match err with
            | Some e =>
                {| response := mkHTTP 500 (ErrorBody ("failed to delete from vendor: " +:+ e));
                   write := None; trace := tr |}
            | None =>
                {| response := mkHTTP 204 NoBody;
                   write := Some (Remove resourceID); trace := tr |}
            end
        end
    end.

(** The record as [HandleCreateResource] hands it to the provider: steps 3
    to 5 applied to the decoded body. *)
Definition pendingRecord (clk : Clock) (resource : ForgeResource) : ForgeResource :=
  let resource := set_ID (generateResourceID (clk AtResourceID)) resource in
  let resource := set_CreatedAt (clk AtCreatedAt) resource in
  let resource := set_UpdatedAt (clk AtUpdatedAt) resource in
  let resource := set_Status (set_Phase "Pending" (Status resource)) resource in
  set_Status (set_Message "Resource creation initiated" (Status resource)) resource.

(** A request served with nothing else in flight: the handler's write is
    committed to the store it read. *)
Definition served (c : Controller) (h : Handled) : Controller :=
  {| Providers := Providers c; ResourceDB := commit (write h) (ResourceDB c) |}.

End controller.

(** ** Concrete worlds, for evaluating the embedding *)

Module fixtures.
Import provider controller.

Definition respond (code : Z) (body : string) : DoResult :=
  DoResp (mkResponse code (Ok body)).

(** A vendor that gives the listed answers to the successive attempts and
    refuses the connection afterwards, under a context that is never
    cancelled. *)
Definition scripted (answers : list DoResult) : Env :=
  {| ctxDoneBefore := fun _ => false;
     clientDo := fun n => default (DoErr "connection refused") (answers !! Z.to_nat n);
     ctxDoneInBackoff := fun _ => false;
     ctxErr := "context deadline exceeded" |}.

Definition unreachable : Env := scripted [].

Definition getDevice : Request :=
  mkRequest "GET" "http://localhost:9000/devices/dev-1" [] None.

(** Stand-ins for [net/url] and [encoding/json]: every URL parses, the
    request body is the resource name, and a response body is read as the
    device id of an active device. *)
Definition stubRuntime : Runtime :=
  {| urlParseError := fun _ => None;
     marshalSonyRequest := fun resource => Ok (Name resource);
     unmarshalSonyResponse := fun body =>
       Ok {| DeviceID := body; SonyStatus := "active";
             SonyMessage := "Device provisioned successfully";
             StreamStatus := None |} |}.

Definition sony : SonyProvider := NewSonyProvider "http://localhost:9000" "test-api-key".

(** The controller as started with neither setting in the environment. *)
Definition fresh : Controller := @NewController stubRuntime "" "".

Definition zeroStatus : ResourceStatus :=
  mkStatus "" "" "" "" 0 None None 0 0 0 0.

Definition camera (name : string) : ForgeResource :=
  {| ID := ""; Type_ := "camera"; Name := name; Namespace := "";
     Spec := {| VendorType := "sony"; Config := [("resolution", CfgString "4K")] |};
     Status := zeroStatus; CreatedAt := None; UpdatedAt := None |}.

(** A wall clock that reads the same nanosecond at every site. *)
Definition stopped (now : Z) : Clock := fun _ => now.

(** A stored record of a camera that the vendor knows as [dev-1], and one
    whose creation never reached the vendor. *)
Definition running : ForgeResource :=
  {| ID := "res-1"; Type_ := "camera"; Name := "cam-1"; Namespace := "";
     Spec := {| VendorType := "sony"; Config := [] |};
     Status := mkStatus "Running" "Device provisioned successfully" "dev-1"
                        "healthy" 0 (Some 5) (Some 5) 0 0 0 0;
     CreatedAt := Some 5; UpdatedAt := Some 5 |}.

Definition failed : ForgeResource :=
  {| ID := "res-1"; Type_ := "camera"; Name := "cam-1"; Namespace := "";
     Spec := {| VendorType := "sony"; Config := [] |};
     Status := mkStatus "Failed" "Vendor API error: down" "" "" 0 None None 0 0 0 0;
     CreatedAt := Some 5; UpdatedAt := Some 5 |}.

Definition holding (resource : ForgeResource) : Controller :=
  {| Providers := Providers fresh; ResourceDB := {[ ID resource := resource ]} |}.

End fixtures.

(** ** The rest of package client *)

Module validate.

(** The body as the error message shows it: at most its first 500 bytes. *)
Definition shownBody (bodyString : string) : string :=
  if (500 <? String.length bodyString)%nat
  then String.substring 0 500 bodyString +:+ "... (truncated)"
  else bodyString.

(** [ValidateResponse].  [statusLine] stands for the field [resp.Status],
    which [Response] does not carry. *)
Definition ValidateResponse (statusLine : Response -> string)
    (resp : option Response) : option string :=
  match resp with
  | None => Some "response is nil"
  | Some r =>
      if StatusCode r <? 400 then None
      else
        match Body r with
        | Err e =>
            Some ("HTTP " +:+ pretty (StatusCode r) +:+ ": " +:+ statusLine r +:+
                  " (failed to read response body: " +:+ e +:+ ")")
        | Ok bodyString =>
            Some ("HTTP " +:+ pretty (StatusCode r) +:+ ": " +:+ statusLine r +:+
                  " - Response body: " +:+ shownBody bodyString)
        end
  end.

Definition DoWithRetryAndValidation (statusLine : Response -> string)
    (env : Env) (req : Request) (maxRetries : Z) : client.Outcome :=
  let '((resp, err), tr) := client.DoWithRetry env req maxRetries in
  match err with
  | Some e => ((None, Some e), tr)
  | None =>
      match ValidateResponse statusLine resp with
      | Some e => ((resp, Some e), tr)
      | None => ((resp, None), tr)
      end
  end.

End validate.

(** The backoffs entered, read off a trace: the attempt each follows and the
    delay it waits. *)
Definition backoffs (tr : list Event) : list (Z * Z) :=
  omap (fun ev => match ev with EvBackoff n d => Some (n, d) | _ => None end) tr.

(** What [client.Do] leaves in [resp] and [lastErr]. *)
Definition outcomeVars (o : DoResult) : option Response * option string :=
  match o with
  | DoErr e => (None, Some e)
  | DoResp r => (Some r, None)
  end.

(** The outcomes [DoWithRetry] retries: a transport error or a status of
    500 and above. *)
Definition retryable (o : DoResult) : Prop :=
  match o with
  | DoErr _ => True
  | DoResp r => 500 <= StatusCode r
  end.

(** The trace [tr] ends with an attempt at which the vendor of [env]
    answered with one of the status codes [codes]. *)
Definition accepted (codes : list Z) (env : Env) (tr : list Event) : Prop :=
  exists n req r tr0,
    clientDo env n = DoResp r /\ StatusCode r ∈ codes /\ tr = tr0 ++ [EvDo n req].

(** The trace of a provider method is empty or that of one executor call
    with 3 retries. *)
Definition oneCall (env : Env) (tr : list Event) : Prop :=
  tr = [] \/ exists req, tr = snd (client.DoWithRetry env req 3).

(** ** The rest of package provider *)

Module sonymap.

Definition mapResolutionToSony (resolution : string) : string :=
  if decide (resolution ∈ ["SD"; "480p"]) then "720x480"
  else if decide (resolution ∈ ["HD"; "720p"]) then "1280x720"
  else if decide (resolution ∈ ["FHD"; "1080p"]) then "1920x1080"
  else if decide (resolution ∈ ["4K"; "2160p"; "UHD"]) then "3840x2160"
  else if decide (resolution ∈ ["8K"; "4320p"]) then "7680x4320"
  else resolution.

Definition mapCodecToSony (codec : string) : string :=
  if decide (codec ∈ ["H.265/HEVC"; "HEVC"]) then "H.265" else codec.

Definition mapLatencyModeToSony (mode : string) : string :=
  if decide (mode = "low") then "ultra_low"
  else if decide (mode = "normal") then "low"
  else if decide (mode = "high") then "normal"
  else "low".

(** [len(url) >= n && url[:n] == scheme] *)
Definition startsWith (n : nat) (scheme url : string) : bool :=
  (n <=? String.length url)%nat && String.eqb (String.substring 0 n url) scheme.

Definition detectStreamProtocol (url : string) : string :=
  if startsWith 7 "rtmp://" url then "RTMP"
  else if startsWith 6 "srt://" url then "SRT"
  else if startsWith 7 "rtsp://" url then "RTSP"
  else if startsWith 6 "ndi://" url then "NDI"
  else "RTMP".

End sonymap.

Module health.
Import provider.

(** [SonyProvider.HealthCheck]: one request through the provider's own
    client, with no retry loop around it.  The body read in the failure case
    drops its error, as in [Delete]. *)
Definition HealthCheck `{Runtime} (s : SonyProvider) (env : Env)
    : option string * list Event :=
  let url := BaseURL s +:+ "/health" in
  match NewRequestWithContext "GET" url None with
  | Err e => (Some ("failed to create HTTP request: " +:+ e), [])
  | Ok req =>
      let req := Header_Set "Authorization" ("Bearer " +:+ APIKey s) req in
      match clientDo env 0 with
      | DoErr e => (Some ("Sony API health check failed: " +:+ e), [EvDo 0 req])
      | DoResp r =>
          if negb (StatusCode r =? 200)
          then
            let respBody := match Body r with Ok b => b | Err _ => "" end in
            (Some ("Sony API unhealthy (status " +:+ pretty (StatusCode r) +:+ "): "
                   +:+ respBody), [EvDo 0 req])
          else (None, [EvDo 0 req])
      end
  end.

(** [Controller.HandleHealthCheck], over the [HealthCheck] method of each
    registered provider ([checks], keyed like [c.Providers]) and the world
    each of these calls meets.  The loop visits every entry, in an order the
    language leaves open; the answer is the status code and the value of the
    "status" key of the body. *)
Definition HandleHealthCheck (checks : gmap string (Env -> option string * list Event))
    (envOf : string -> Env) : Z * string :=
  let healthy :=
    map_fold (fun name check healthy =>
                match fst (check (envOf name)) with
                | Some _ => false
                | None => healthy
                end) true checks in
  if healthy then (200, "healthy") else (503, "unhealthy").

End health.

(** ** Requests served one after another *)

Module lifecycle.
Import provider controller.

Inductive Call : Type :=
| Post (decoded : Result ForgeResource)   (* POST /resources *)
| Get (id : string)                       (* GET /resources/{id} *)
| Del (id : string).                      (* DELETE /resources/{id} *)

(** A request together with the clock and the vendor it meets. *)
Record Arrival : Type := mkArrival {
  call : Call;
  clockOf : Clock;
  envOf : Env
}.

Definition handle (c : Controller) (a : Arrival) : Handled :=
  match call a with
  | Post decoded => HandleCreateResource c decoded (clockOf a) (envOf a)
  | Get id => HandleGetResource c id (clockOf a) (envOf a)
  | Del id => HandleDeleteResource c id (envOf a)
  end.

Definition serve (c : Controller) (a : Arrival) : Controller := served c (handle c a).

Definition run (c : Controller) (arrivals : list Arrival) : Controller :=
  foldl serve c arrivals.


(** What every record of the store satisfies: it is filed under its own id,
    which is not empty, it has the required fields, and a provider is
    registered for its vendor type. *)
Definition wellKept (c : Controller) : Prop :=
  forall k r,
    ResourceDB c !! k = Some r ->
    ID r = k /\ k <> "" /\ Name r <> "" /\ Type_ r <> ""
    /\ is_Some (Providers c !! VendorType (Spec r)).

End lifecycle.

(** ** The mock vendor (package main of cmd/vendor-api) *)

Module vendorapi.

(** The fields of [models.SonyDeviceRequest] that the mock reads. *)
Record SonyDeviceRequest : Type := mkDeviceRequest {
  DeviceName : string;
  Model : string
}.

Inductive Answer : Type :=
| Empty
| Error (msg : string)                    (* {"error": msg} *)
| Device (device : SonyDeviceResponse).

(** The [%04d] of a number that is not negative. *)
Definition pad4 (n : Z) : string :=
  let digits := pretty n in
  String.concat "" (replicate (4 - String.length digits) "0") +:+ digits.

(** [fmt.Sprintf("sony-dev-%d-%04d", time.Now().Unix(), rand.Intn(10000))],
    given the clock reading and the number drawn. *)
Definition generateDeviceID (now drawn : Z) : string :=
  "sony-dev-" +:+ pretty now +:+ "-" +:+ pad4 drawn.

(** Each handler takes the [devices] map and returns it with the status code
    and the body of its answer. *)
Definition HandleCreateDevice (devices : gmap string SonyDeviceResponse)
    (decoded : Result SonyDeviceRequest) (now drawn : Z)
    : gmap string SonyDeviceResponse * (Z * Answer) :=
  match decoded with
  | Err e => (devices, (400, Error ("invalid JSON: " +:+ e)))
  | Ok req =>
      if decide (DeviceName req = "") then (devices, (400, Error "device_name is required"))
      else if decide (Model req = "") then (devices, (400, Error "model is required"))
      else
        let deviceID := generateDeviceID now drawn in
        let deviceResponse :=
          {| DeviceID := deviceID; SonyStatus := "active";
             SonyMessage := "Device provisioned successfully";
             StreamStatus := None |} in
        (<[deviceID := deviceResponse]> devices, (201, Device deviceResponse))
  end.

Definition HandleGetDevice (devices : gmap string SonyDeviceResponse)
    (deviceID : string) : gmap string SonyDeviceResponse * (Z * Answer) :=
  if decide (deviceID = "") then (devices, (400, Error "device ID is required"))
  else
    match devices !! deviceID with
    | None => (devices, (404, Error "device not found"))
    | Some device => (devices, (200, Device device))
    end.

Definition HandleDeleteDevice (devices : gmap string SonyDeviceResponse)
    (deviceID : string) : gmap string SonyDeviceResponse * (Z * Answer) :=
  if decide (deviceID = "") then (devices, (400, Error "device ID is required"))
  else
    match devices !! deviceID with
    | None => (devices, (404, Error "device not found"))
    | Some _ => (delete deviceID devices, (204, Empty))
    end.

End vendorapi.

(** ** More concrete worlds *)

Module worlds.
Import provider controller.

(** A context that is already cancelled when the call starts. *)
Definition cancelled : Env :=
  {| ctxDoneBefore := fun _ => true;
     clientDo := fun _ => DoErr "context canceled";
     ctxDoneInBackoff := fun _ => true;
     ctxErr := "context canceled" |}.

(** A vendor that answers 503 once and is then given up on: the context is
    cancelled during the first backoff. *)
Definition givenUp : Env :=
  {| ctxDoneBefore := fun _ => false;
     clientDo := fun _ => fixtures.respond 503 "busy";
     ctxDoneInBackoff := fun _ => true;
     ctxErr := "context deadline exceeded" |}.

Definition statusText (r : Response) : string :=
  pretty (StatusCode r) +:+ " status".

(** A vendor that answers 404 and whose answer breaks off before the body
    is read. *)
Definition cutOff404 : Env :=
  fixtures.scripted [DoResp (mkResponse 404 (Err "unexpected EOF"))].

End worlds.

(** * Properties *)

(** ** The executor *)

Section Executor.
Import client.
Variables (env : Env) (req : Request) (maxRetries : Z).

Lemma emit_Some evs o r tr :
  emit evs o = Some (r, tr) ->
  exists tr', o = Some (r, tr') /\ tr = evs ++ tr'.
Proof.
  destruct o as [[r' tr']|]; simpl; intros E; inversion E; subst; eauto.
Qed.

(** One iteration of the loop, case by case. *)
Lemma retryLoop_step fuel attempt resp lastErr r tr :
  retryLoop (S fuel) env req maxRetries attempt resp lastErr = Some (r, tr) ->
  (maxRetries < attempt /\ r = afterLoop maxRetries resp lastErr /\ tr = [])
  \/ (attempt <= maxRetries /\ ctxDoneBefore env attempt = true /\ tr = []
      /\ r = (None, Some ("request cancelled: " +:+ ctxErr env)))
  \/ (attempt <= maxRetries /\ ctxDoneBefore env attempt = false /\
      exists resp' lastErr',
        (resp', lastErr') =
          match clientDo env attempt with
          | DoErr e => (None, Some e)
          | DoResp r0 => (Some r0, None)
          end /\
        ((received_ok resp' lastErr' = true /\ r = (resp', None)
          /\ tr = [EvDo attempt req])
         \/ (received_ok resp' lastErr' = false /\ attempt = maxRetries
             /\ r = afterLoop maxRetries resp' lastErr' /\ tr = [EvDo attempt req])
         \/ (received_ok resp' lastErr' = false /\ attempt < maxRetries
             /\ ctxDoneInBackoff env attempt = true
             /\ r = (None, Some ("request cancelled during backoff: " +:+ ctxErr env))
             /\ tr = EvDo attempt req :: closeBefore attempt resp' lastErr'
                       ++ [EvBackoff attempt (backoffDelay attempt)])
         \/ (received_ok resp' lastErr' = false /\ attempt < maxRetries
             /\ ctxDoneInBackoff env attempt = false
             /\ exists tr',
                 retryLoop fuel env req maxRetries (attempt + 1) resp' lastErr'
                   = Some (r, tr')
                 /\ tr = EvDo attempt req :: (closeBefore attempt resp' lastErr'
                       ++ [EvBackoff attempt (backoffDelay attempt)]) ++ tr'))).
Proof.
  cbn [retryLoop].
  destruct (Z.leb_spec attempt maxRetries) as [Hle|Hgt].
  2:{ intros E; inversion E; subst; left; auto. }
  destruct (ctxDoneBefore env attempt) eqn:Hdone.
  { intros E; inversion E; subst; right; left; auto. }
  intros E. right; right. split; [exact Hle|]. split; [reflexivity|].
  destruct (match clientDo env attempt with
            | DoErr e => (None, Some e)
            | DoResp r0 => (Some r0, None)
            end) as [resp' lastErr'] eqn:Hdo.
  exists resp', lastErr'. split; [reflexivity|].
  apply emit_Some in E as (tr1 & E & ->).
  destruct (received_ok resp' lastErr') eqn:Hok.
  { inversion E; subst. left; auto. }
  destruct (Z.eqb_spec attempt maxRetries) as [Heq|Hne].
  { inversion E; subst. right; left; auto. }
  apply emit_Some in E as (tr2 & E & ->).
  destruct (ctxDoneInBackoff env attempt) eqn:Hback.
  { inversion E; subst. right; right; left.
    repeat split; auto; try lia. by rewrite app_nil_r. }
  right; right; right. repeat split; auto; try lia. eauto.
Qed.

(** The loop returns: [loopFuel] iterations are enough. *)
Lemma retryLoop_fuel fuel attempt resp lastErr :
  (Z.to_nat (maxRetries + 1 - attempt) < fuel)%nat ->
  is_Some (retryLoop fuel env req maxRetries attempt resp lastErr).
Proof.
  revert attempt resp lastErr.
  induction fuel as [|fuel IH]; intros attempt resp lastErr Hfuel; [lia|].
  cbn [retryLoop].
  destruct (Z.leb_spec attempt maxRetries) as [Hle|Hgt]; [|eauto].
  destruct (ctxDoneBefore env attempt); [eauto|].
  destruct (match clientDo env attempt with
            | DoErr e => (None, Some e)
            | DoResp r0 => (Some r0, None)
            end) as [resp' lastErr'].
  destruct (received_ok resp' lastErr'); [simpl; eauto|].
  destruct (Z.eqb_spec attempt maxRetries); [simpl; eauto|].
  destruct (ctxDoneInBackoff env attempt); [simpl; eauto|].
  destruct (IH (attempt + 1) resp' lastErr') as [[r tr] E]; [lia|].
  rewrite E. simpl. eauto.
Qed.

Lemma DoWithRetry_fuel :
  retryLoop (loopFuel maxRetries) env req maxRetries 0 None None
  = Some (DoWithRetry env req maxRetries).
Proof.
  unfold DoWithRetry.
  destruct (retryLoop_fuel (loopFuel maxRetries) 0 None None) as [o E].
  - unfold loopFuel. lia.
  - by rewrite E.
Qed.

End Executor.

Section ExecutorLoop.
Import client.
Variables (env : Env) (req : Request) (maxRetries : Z).

Lemma attempts_app tr1 tr2 : attempts (tr1 ++ tr2) = attempts tr1 ++ attempts tr2.
Proof. unfold attempts. apply omap_app. Qed.

Lemma attempts_do n req' tr : attempts (EvDo n req' :: tr) = n :: attempts tr.
Proof. reflexivity. Qed.

Lemma attempts_closeBefore attempt resp lastErr d :
  attempts (closeBefore attempt resp lastErr ++ [EvBackoff attempt d]) = [].
Proof. by destruct lastErr, resp. Qed.

Lemma EvDo_not_in_pause n req' attempt resp lastErr d :
  EvDo n req' ∉ closeBefore attempt resp lastErr ++ [EvBackoff attempt d].
Proof.
  intros Hin. apply elem_of_app in Hin as [Hin|Hin].
  - destruct lastErr, resp; simpl in Hin;
      repeat (apply elem_of_cons in Hin as [Hin|Hin]; [discriminate|]);
      by apply elem_of_nil in Hin.
  - apply list_elem_of_singleton in Hin. discriminate.
Qed.

(** From attempt [attempt] on, at most [maxRetries + 1 - attempt] requests
    are issued. *)
Lemma retryLoop_attempts fuel attempt resp lastErr r tr :
  retryLoop fuel env req maxRetries attempt resp lastErr = Some (r, tr) ->
  (length (attempts tr) <= Z.to_nat (maxRetries + 1 - attempt))%nat.
Proof.
  revert attempt resp lastErr r tr.
  induction fuel as [|fuel IH]; intros attempt resp lastErr r tr E; [discriminate|].
  apply retryLoop_step in E
    as [(_ & _ & ->)|[(_ & _ & -> & _)|(Hle & _ & resp' & lastErr' & _ & E)]];
    [simpl; lia..|].
  destruct E as [(_ & _ & ->)|[(_ & _ & _ & ->)|[(_ & _ & _ & _ & ->)|E]]].
  - simpl. lia.
  - simpl. lia.
  - rewrite attempts_do, attempts_closeBefore. simpl. lia.
  - destruct E as (_ & Hlt & _ & tr' & E & ->).
    apply IH in E.
    rewrite attempts_do, attempts_app, attempts_closeBefore. simpl. lia.
Qed.

(** An attempt that receives a response below 500 ends the call at once:
    that response is returned with a [nil] error and the attempt is the last
    event of the trace. *)
Lemma retryLoop_stops fuel attempt resp lastErr r tr n req' r0 :
  retryLoop fuel env req maxRetries attempt resp lastErr = Some (r, tr) ->
  EvDo n req' ∈ tr ->
  clientDo env n = DoResp r0 ->
  StatusCode r0 < 500 ->
  r = (Some r0, None) /\ exists tr0, tr = tr0 ++ [EvDo n req].
Proof.
  revert attempt resp lastErr r tr.
  induction fuel as [|fuel IH]; intros attempt resp lastErr r tr E Hin Hdo Hlt;
    [discriminate|].
  apply retryLoop_step in E
    as [(_ & _ & ->)|[(_ & _ & -> & _)|(_ & _ & resp' & lastErr' & Hres & E)]];
    [by apply elem_of_nil in Hin..|].
  assert (Hn : n = attempt -> received_ok resp' lastErr' = true /\ resp' = Some r0).
  { intros ->. rewrite Hdo in Hres. inversion Hres; subst. simpl.
    split; [by apply Z.ltb_lt|done]. }
  destruct E as [(Hok & -> & ->)|[(Hok & _ & _ & ->)|[(Hok & _ & _ & _ & ->)|E]]].
  - apply list_elem_of_singleton in Hin. inversion Hin; subst.
    destruct Hn as [_ ->]; [done|]. split; [done|]. by exists [].
  - apply list_elem_of_singleton in Hin. inversion Hin; subst.
    destruct Hn as [Hn _]; [done|]. congruence.
  - apply elem_of_cons in Hin as [Hin|Hin].
    + inversion Hin; subst. destruct Hn as [Hn _]; [done|]. congruence.
    + by apply EvDo_not_in_pause in Hin.
  - destruct E as (Hok & _ & _ & tr' & E & ->).
    apply elem_of_cons in Hin as [Hin|Hin].
    + inversion Hin; subst. destruct Hn as [Hn _]; [done|]. congruence.
    + apply elem_of_app in Hin as [Hin|Hin]; [by apply EvDo_not_in_pause in Hin|].
      destruct (IH _ _ _ _ _ E Hin Hdo Hlt) as (-> & tr0 & ->).
      split; [done|].
      exists (EvDo attempt req
                :: (closeBefore attempt resp' lastErr'
                    ++ [EvBackoff attempt (backoffDelay attempt)]) ++ tr0).
      by rewrite !app_comm_cons, <- !app_assoc.
Qed.

(** A returned response below 500 never comes with an error. *)
Lemma retryLoop_error_nil fuel attempt resp lastErr r0 err tr :
  retryLoop fuel env req maxRetries attempt resp lastErr = Some ((Some r0, err), tr) ->
  StatusCode r0 < 500 ->
  err = None.
Proof.
  assert (Hafter : forall resp lastErr,
             afterLoop maxRetries resp lastErr = (Some r0, err) ->
             StatusCode r0 < 500 -> err = None).
  { intros resp1 lastErr1 E Hlt. unfold afterLoop in E.
    destruct lastErr1; [discriminate|].
    destruct resp1 as [r1|]; [|discriminate].
    destruct (Z.geb_spec (StatusCode r1) 500); inversion E; subst; [lia|done]. }
  revert attempt resp lastErr tr.
  induction fuel as [|fuel IH]; intros attempt resp lastErr tr E Hlt; [discriminate|].
  apply retryLoop_step in E
    as [(_ & E & _)|[(_ & _ & _ & E)|(_ & _ & resp' & lastErr' & _ & E)]].
  - symmetry in E. eauto.
  - discriminate.
  - destruct E as [(_ & E & _)|[(_ & _ & E & _)|[(_ & _ & _ & E & _)|E]]].
    + by inversion E.
    + symmetry in E. eauto.
    + discriminate.
    + destruct E as (_ & _ & _ & tr' & E & _). eauto.
Qed.

(** Both results are [nil] only when the loop body never ran. *)
Lemma retryLoop_nil_nil fuel attempt resp lastErr tr :
  retryLoop fuel env req maxRetries attempt resp lastErr = Some ((None, None), tr) ->
  maxRetries < attempt.
Proof.
  revert attempt resp lastErr tr.
  induction fuel as [|fuel IH]; intros attempt resp lastErr tr E; [discriminate|].
  apply retryLoop_step in E
    as [(Hgt & _)|[(_ & _ & _ & E)|(_ & _ & resp' & lastErr' & Hres & E)]];
    [done|discriminate|].
  assert (Hafter : afterLoop maxRetries resp' lastErr' <> (None, None)).
  { destruct (clientDo env attempt); inversion Hres; subst; simpl; [done|].
    by destruct (StatusCode r >=? 500). }
  destruct E as [(Hok & E & _)|[(_ & _ & E & _)|[(_ & _ & _ & E & _)|E]]].
  - inversion E; subst. by destruct lastErr'.
  - congruence.
  - discriminate.
  - destruct E as (_ & Hlt & _ & tr' & E & _). apply IH in E. lia.
Qed.

End ExecutorLoop.

(** ** The executor, as called *)

Section DoWithRetry.
Import client.
Variables (env : Env) (req : Request) (maxRetries : Z).

Lemma DoWithRetry_attempts :
  (length (attempts (snd (DoWithRetry env req maxRetries)))
   <= Z.to_nat (maxRetries + 1))%nat.
Proof.
  pose proof (DoWithRetry_fuel env req maxRetries) as E.
  destruct (DoWithRetry env req maxRetries) as [r tr].
  apply retryLoop_attempts in E. simpl. by rewrite Z.sub_0_r in E.
Qed.

Lemma DoWithRetry_stops n req' r :
  EvDo n req' ∈ snd (DoWithRetry env req maxRetries) ->
  clientDo env n = DoResp r ->
  StatusCode r < 500 ->
  fst (DoWithRetry env req maxRetries) = (Some r, None)
  /\ exists tr0, snd (DoWithRetry env req maxRetries) = tr0 ++ [EvDo n req].
Proof.
  pose proof (DoWithRetry_fuel env req maxRetries) as E.
  destruct (DoWithRetry env req maxRetries) as [res tr]. simpl.
  intros Hin Hdo Hlt. eapply retryLoop_stops; eauto.
Qed.

Lemma DoWithRetry_error_nil r err :
  fst (DoWithRetry env req maxRetries) = (Some r, err) ->
  StatusCode r < 500 ->
  err = None.
Proof.
  pose proof (DoWithRetry_fuel env req maxRetries) as E.
  destruct (DoWithRetry env req maxRetries) as [res tr]. simpl.
  intros ->. by eapply retryLoop_error_nil.
Qed.

(** With a non-negative retry count the caller never gets [(nil, nil)]. *)
Lemma DoWithRetry_nil_nil :
  0 <= maxRetries ->
  fst (DoWithRetry env req maxRetries) <> (None, None).
Proof.
  pose proof (DoWithRetry_fuel env req maxRetries) as E.
  destruct (DoWithRetry env req maxRetries) as [res tr]. simpl.
  intros Hpos ->. apply retryLoop_nil_nil in E. lia.
Qed.

End DoWithRetry.

(** C1.  A call of [DoWithRetry] with retry count [maxRetries] issues at most
    [maxRetries + 1] HTTP attempts; and the first attempt that receives a
    response with a status below 500 ends the call: that response is returned
    with a [nil] error, and the attempt is the last event of the trace, so no
    backoff and no further attempt follow it. *)
Theorem DoWithRetry_at_most_max_plus_one_attempts
    (env : Env) (req : Request) (maxRetries : Z) :
  0 <= maxRetries ->
  Z.of_nat (length (client.attempts (snd (client.DoWithRetry env req maxRetries))))
    <= maxRetries + 1
  /\ forall n r,
      EvDo n req ∈ snd (client.DoWithRetry env req maxRetries) ->
      clientDo env n = DoResp r ->
      StatusCode r < 500 ->
      fst (client.DoWithRetry env req maxRetries) = (Some r, None)
      /\ exists tr0, snd (client.DoWithRetry env req maxRetries) = tr0 ++ [EvDo n req].
Proof.
  intros Hpos. split.
  - pose proof (DoWithRetry_attempts env req maxRetries). lia.
  - intros n r. apply DoWithRetry_stops.
Qed.

Lemma DoWithRetry_at_most_max_plus_one_attempts_witness :
  let env := fixtures.scripted [fixtures.respond 503 "busy"; fixtures.respond 404 "gone"] in
  0 <= 3
  /\ Z.of_nat (length (client.attempts (snd (client.DoWithRetry env fixtures.getDevice 3))))
     <= 3 + 1
  /\ fst (client.DoWithRetry env fixtures.getDevice 3)
     = (Some (mkResponse 404 (Ok "gone")), None).
Proof.
  intros env.
  destruct (DoWithRetry_at_most_max_plus_one_attempts env fixtures.getDevice 3)
    as [Hbound Hstop]; [lia|].
  split; [lia|]. split; [exact Hbound|].
  apply (Hstop 1 (mkResponse 404 (Ok "gone"))).
  - apply (list_elem_of_lookup_2 _ 3%nat). reflexivity.
  - reflexivity.
  - simpl. lia.
Defined.

(** Header keys go on the request in canonical form, and a key that is set
    again keeps only its last value. *)
Example Header_Set_canonical :
  Header (Header_Set "accept" "text/plain"
            (Header_Set "X-Forge-Resource-ID" "res-1"
               (Header_Set "Accept" "application/json"
                  (mkRequest "GET" "http://localhost:9000/health" [] None))))
  = [("X-Forge-Resource-Id", "res-1"); ("Accept", "text/plain")].
Proof. reflexivity. Qed.

(** The trace of one run: a 503 is retried after 100 ms, the 404 that
    follows is handed back at once. *)
Example DoWithRetry_503_then_404 :
  client.DoWithRetry
    (fixtures.scripted [fixtures.respond 503 "busy"; fixtures.respond 404 "gone"])
    fixtures.getDevice 3
  = ((Some (mkResponse 404 (Ok "gone")), None),
     [EvDo 0 fixtures.getDevice; EvCloseBody 0; EvBackoff 0 (100 * time.Millisecond);
      EvDo 1 fixtures.getDevice]).
Proof. reflexivity. Qed.

(** ** The backoff schedule *)

(** Up to attempt 36 the product [2^attempt * 100ms] fits an [int64], and the
    delay is the capped exponential. *)
Lemma backoffDelay_small (attempt : Z) :
  0 <= attempt <= 36 ->
  client.backoffDelay attempt
  = Z.min (5 * time.Second) (100 * time.Millisecond * 2 ^ attempt).
Proof.
  intros Hrange.
  assert (Hnat : exists k : nat, attempt = Z.of_nat k /\ (k <= 36)%nat).
  { exists (Z.to_nat attempt). lia. }
  destruct Hnat as (k & -> & Hk).
  do 37 (destruct k as [|k]; [by vm_compute|]).
  lia.
Qed.

Lemma backoffDelay_monotone_small (a b : Z) :
  0 <= a <= b -> b <= 36 ->
  client.backoffDelay a <= client.backoffDelay b.
Proof.
  intros Hab Hb. rewrite !backoffDelay_small by lia.
  apply Z.min_le_compat_l, Z.mul_le_mono_nonneg_l; [by vm_compute|].
  apply Z.pow_le_mono_r; lia.
Qed.

(** C2.  The delay after attempt 37 is not [min(cap, base * 2^37)]: the
    product [2^37 * 100ms] overflows [int64] before the cap is applied, so
    the executor waits a negative duration (that is, not at all) where the
    schedule asks for 5 s, and the delays are no longer non-decreasing.  The
    run below is a call with 38 retries against an unreachable vendor. *)
Theorem backoffDelay_overflows_at_attempt_37 :
  let tr := snd (client.DoWithRetry fixtures.unreachable fixtures.getDevice 38) in
  tr !! 73%nat = Some (EvBackoff 36 (5 * time.Second))
  /\ tr !! 75%nat = Some (EvBackoff 37 (-4702848726509551616))
  /\ tr !! 76%nat = Some (EvDo 38 fixtures.getDevice)
  /\ client.backoffDelay 37 = -4702848726509551616
  /\ Z.min (5 * time.Second) (100 * time.Millisecond * 2 ^ 37) = 5 * time.Second.
Proof. by vm_compute. Qed.

(** ** The provider *)

Section Provider.
Import provider.
Context `{RT : Runtime}.

(** A method that received a response below 500 at some attempt got that
    response, with no error, from the executor. *)
Ltac received Hin Hdo Hlt E :=
  match type of E with
  | client.DoWithRetry ?env ?req 3 = _ =>
      let Hst := fresh in
      destruct (DoWithRetry_stops env req 3 _ _ _
                  ltac:(rewrite E; exact Hin) Hdo Hlt) as [Hst _];
      rewrite E in Hst; simpl in Hst; inversion Hst; subst; clear Hst
  end.

Lemma Read_received s env clk vendorID n req' r body :
  EvDo n req' ∈ snd (Sony.Read s env clk vendorID) ->
  clientDo env n = DoResp r ->
  StatusCode r < 500 ->
  Body r = Ok body ->
  fst (Sony.Read s env clk vendorID)
  = if StatusCode r =? 404
    then Ok {| Phase := "Failed"; Message := "Device not found in Sony system";
               VendorID := vendorID; HealthStatus := "unhealthy"; ErrorCount := 0;
               LastHealthCheck := None; LastSuccessfulOperation := None;
               CurrentBitrate := 0; DroppedFrames := 0; ConnectionCount := 0;
               Uptime := 0 |}
    else if negb (StatusCode r =? 200) then Err (Sony.statusError r body)
    else Sony.parseStatus clk body.
Proof.
  unfold Sony.Read. intros Hin Hdo Hlt Hbody.
  destruct (NewRequestWithContext _ _ _) as [req|e]; simpl in *;
    [|by apply elem_of_nil in Hin].
  destruct (client.DoWithRetry env _ 3) as [[resp err] tr] eqn:E.
  assert (Htr : EvDo n req' ∈ tr).
  { destruct err, resp as [r1|]; simpl in Hin; try done.
    destruct (Body r1); [|done].
    destruct (StatusCode r1 =? 404); [done|].
    by destruct (negb (StatusCode r1 =? 200)). }
  received Htr Hdo Hlt E.
  rewrite Hbody.
  destruct (StatusCode r =? 404); [done|].
  by destruct (negb (StatusCode r =? 200)).
Qed.

Lemma Delete_received s env vendorID n req' r :
  EvDo n req' ∈ snd (Sony.Delete s env vendorID) ->
  clientDo env n = DoResp r ->
  StatusCode r < 500 ->
  fst (Sony.Delete s env vendorID)
  = if (StatusCode r =? 204) || (StatusCode r =? 200) || (StatusCode r =? 404)
    then None
    else Some (Sony.statusError r match Body r with Ok b => b | Err _ => "" end).
Proof.
  unfold Sony.Delete. intros Hin Hdo Hlt.
  destruct (NewRequestWithContext _ _ _) as [req|e]; simpl in *;
    [|by apply elem_of_nil in Hin].
  destruct (client.DoWithRetry env _ 3) as [[resp err] tr] eqn:E.
  assert (Htr : EvDo n req' ∈ tr).
  { destruct err, resp as [r1|]; simpl in Hin; try done.
    by destruct ((StatusCode r1 =? 204) || (StatusCode r1 =? 200)
                 || (StatusCode r1 =? 404)). }
  received Htr Hdo Hlt E.
  by destruct ((StatusCode r =? 204) || (StatusCode r =? 200) || (StatusCode r =? 404)).
Qed.

Lemma Create_received s env clk resource n req' r body :
  EvDo n req' ∈ snd (Sony.Create s env clk resource) ->
  clientDo env n = DoResp r ->
  StatusCode r < 500 ->
  Body r = Ok body ->
  fst (Sony.Create s env clk resource)
  = if negb (StatusCode r =? 201) && negb (StatusCode r =? 200)
    then Err (Sony.statusError r body)
    else Sony.parseStatus clk body.
Proof.
  unfold Sony.Create. intros Hin Hdo Hlt Hbody.
  destruct (marshalSonyRequest resource) as [requestBody|e]; simpl in *;
    [|by apply elem_of_nil in Hin].
  destruct (NewRequestWithContext _ _ _) as [req|e]; simpl in *;
    [|by apply elem_of_nil in Hin].
  destruct (client.DoWithRetry env _ 3) as [[resp err] tr] eqn:E.
  assert (Htr : EvDo n req' ∈ tr).
  { destruct err, resp as [r1|]; simpl in Hin; try done.
    destruct (Body r1); [|done].
    by destruct (negb (StatusCode r1 =? 201) && negb (StatusCode r1 =? 200)). }
  received Htr Hdo Hlt E.
  rewrite Hbody.
  by destruct (negb (StatusCode r =? 201) && negb (StatusCode r =? 200)).
Qed.

End Provider.

(** A GET of a stored record whose provider is configured answers 200,
    whatever the vendor does. *)
Lemma Get_found_is_200 (c : controller.Controller) id resource p clk env :
  id <> "" ->
  controller.ResourceDB c !! id = Some resource ->
  controller.Providers c !! VendorType (Spec resource) = Some p ->
  controller.Code (controller.response (controller.HandleGetResource c id clk env)) = 200.
Proof.
  intros Hid Hdb Hp. unfold controller.HandleGetResource.
  destruct (decide (id = "")); [done|].
  rewrite Hdb, Hp.
  destruct (decide (VendorID (Status resource) = "")); [done|].
  destruct (provider.Read p env clk (VendorID (Status resource))) as [[st|e] tr]; done.
Qed.

(** C6, as amended.  When the vendor answers a [Read] with 404 and the body
    of that answer is read without error, [Read] returns no error but the
    status with phase [Failed], the message "Device not found in Sony system",
    the vendor id asked for and health "unhealthy"; and a GET of a stored
    record bound to that vendor id answers 200 with that record, its status
    replaced by this one and its [UpdatedAt] by the clock reading, and writes
    the same record back to the store under the same id. *)
Theorem Read_not_found_is_a_Failed_status `{RT : Runtime}
    (s : provider.SonyProvider) (env : Env) (clk : Clock) (vendorID : string)
    (n : Z) (req : Request) (r : Response) (body : string) :
  EvDo n req ∈ snd (provider.Sony.Read s env clk vendorID) ->
  clientDo env n = DoResp r ->
  StatusCode r = 404 ->
  Body r = Ok body ->
  let notFound :=
    {| Phase := "Failed"; Message := "Device not found in Sony system";
       VendorID := vendorID; HealthStatus := "unhealthy"; ErrorCount := 0;
       LastHealthCheck := None; LastSuccessfulOperation := None;
       CurrentBitrate := 0; DroppedFrames := 0; ConnectionCount := 0; Uptime := 0 |} in
  fst (provider.Sony.Read s env clk vendorID) = Ok notFound
  /\ forall (c : controller.Controller) id resource,
      id <> "" ->
      controller.ResourceDB c !! id = Some resource ->
      controller.Providers c !! VendorType (Spec resource)
        = Some (provider.SonyVendorProvider s) ->
      VendorID (Status resource) = vendorID ->
      vendorID <> "" ->
      let h := controller.HandleGetResource c id clk env in
      let refreshed := set_UpdatedAt (clk AtUpdatedAt) (set_Status notFound resource) in
      controller.response h = controller.mkHTTP 200 (controller.ResourceBody refreshed)
      /\ controller.write h = Some (controller.Put id refreshed)
      /\ controller.ResourceDB (controller.served c h) !! id = Some refreshed
      /\ Phase (Status refreshed) = "Failed"
      /\ (ID refreshed, Name refreshed, Type_ refreshed, Namespace refreshed,
          Spec refreshed, CreatedAt refreshed)
         = (ID resource, Name resource, Type_ resource, Namespace resource,
            Spec resource, CreatedAt resource).
Proof.
  intros Hin Hdo Hst Hbody notFound.
  pose proof (Read_received s env clk vendorID n req r body Hin Hdo
                ltac:(lia) Hbody) as E.
  rewrite Hst in E. simpl in E.
  split; [exact E|].
  intros c id resource Hid Hdb Hp Hv Hne h refreshed. subst h refreshed.
  unfold controller.HandleGetResource.
  destruct (decide (id = "")); [done|].
  rewrite Hdb, Hp.
  destruct (decide (VendorID (Status resource) = "")); [congruence|].
  simpl. rewrite Hv.
  destruct (provider.Sony.Read s env clk vendorID) as [res tr].
  simpl in E. subst res. simpl.
  split; [done|]. split; [done|]. split; [apply lookup_insert_eq|]. done.
Qed.

Lemma Read_not_found_is_a_Failed_status_witness :
  let env := fixtures.scripted [fixtures.respond 503 "busy"; fixtures.respond 404 "gone"] in
  let c := fixtures.holding fixtures.running in
  let h := controller.HandleGetResource c "res-1" (fixtures.stopped 7) env in
  let notFound :=
    mkStatus "Failed" "Device not found in Sony system" "dev-1" "unhealthy"
             0 None None 0 0 0 0 in
  let refreshed := set_UpdatedAt 7 (set_Status notFound fixtures.running) in
  fst (@provider.Sony.Read fixtures.stubRuntime fixtures.sony env
         (fixtures.stopped 7) "dev-1") = Ok notFound
  /\ controller.response h = controller.mkHTTP 200 (controller.ResourceBody refreshed)
  /\ controller.ResourceDB (controller.served c h) !! "res-1" = Some refreshed.
Proof.
  intros env c h notFound refreshed.
  destruct (@Read_not_found_is_a_Failed_status fixtures.stubRuntime fixtures.sony
              env (fixtures.stopped 7) "dev-1" 1
              (mkRequest "GET" "http://localhost:9000/devices/dev-1"
                 [("Authorization", "Bearer test-api-key"); ("Accept", "application/json")]
                 None)
              (mkResponse 404 (Ok "gone")) "gone")
    as [Hread Hget].
  - apply (list_elem_of_lookup_2 _ 3%nat). reflexivity.
  - reflexivity.
  - reflexivity.
  - reflexivity.
  - split; [exact Hread|].
    destruct (Hget c "res-1" fixtures.running) as (Hresp & _ & Hdb & _).
    + discriminate.
    + reflexivity.
    + reflexivity.
    + reflexivity.
    + discriminate.
    + split; [exact Hresp|exact Hdb].
Defined.

(** C6, as stated, fails on a 404 whose body cannot be read: [Read] reads the
    body before it looks at the status, so the vendor has answered 404 and
    yet [Read] returns the error of the read; the GET that made the call then
    answers 200 with the record as stored, still in phase Running, and writes
    nothing. *)
Lemma Read_not_found_with_unreadable_body_is_an_error :
  let env := worlds.cutOff404 in
  let req := mkRequest "GET" "http://localhost:9000/devices/dev-1"
               [("Authorization", "Bearer test-api-key"); ("Accept", "application/json")]
               None in
  let h := controller.HandleGetResource (fixtures.holding fixtures.running) "res-1"
             (fixtures.stopped 7) env in
  snd (@provider.Sony.Read fixtures.stubRuntime fixtures.sony env
         (fixtures.stopped 7) "dev-1") = [EvDo 0 req]
  /\ (exists r, clientDo env 0 = DoResp r /\ StatusCode r = 404)
  /\ fst (@provider.Sony.Read fixtures.stubRuntime fixtures.sony env
            (fixtures.stopped 7) "dev-1")
     = Err "failed to read Sony API response: unexpected EOF"
  /\ ~ (exists st,
          fst (@provider.Sony.Read fixtures.stubRuntime fixtures.sony env
                 (fixtures.stopped 7) "dev-1") = Ok st)
  /\ controller.response h
     = controller.mkHTTP 200 (controller.ResourceBody fixtures.running)
  /\ controller.write h = None
  /\ Phase (Status fixtures.running) = "Running".
Proof.
  intros env req h.
  split; [reflexivity|]. split; [by eexists|]. split; [reflexivity|].
  split; [by intros [st [=]]|]. split; [reflexivity|]. split; reflexivity.
Qed.

(** C7.  [Delete] is idempotent: a call the vendor answers with 404 (the
    resource is already absent) ends like a call the vendor answers with 204
    or 200 (the resource was present), with a [nil] error. *)
Theorem Delete_not_found_is_success `{RT : Runtime}
    (s : provider.SonyProvider) (vendorID : string)
    (absent present : Env) (na np : Z) (reqa reqp : Request) (ra rp : Response) :
  EvDo na reqa ∈ snd (provider.Sony.Delete s absent vendorID) ->
  clientDo absent na = DoResp ra ->
  StatusCode ra = 404 ->
  EvDo np reqp ∈ snd (provider.Sony.Delete s present vendorID) ->
  clientDo present np = DoResp rp ->
  StatusCode rp = 204 \/ StatusCode rp = 200 ->
  fst (provider.Sony.Delete s absent vendorID) = None
  /\ fst (provider.Sony.Delete s present vendorID)
     = fst (provider.Sony.Delete s absent vendorID).
Proof.
  intros Hina Hdoa Hsta Hinp Hdop Hstp.
  rewrite (Delete_received s absent vendorID na reqa ra Hina Hdoa ltac:(lia)).
  rewrite (Delete_received s present vendorID np reqp rp Hinp Hdop ltac:(lia)).
  rewrite Hsta. split; [done|].
  by destruct Hstp as [-> | ->].
Qed.

Lemma Delete_not_found_is_success_witness :
  fst (@provider.Sony.Delete fixtures.stubRuntime fixtures.sony
         (fixtures.scripted [fixtures.respond 404 "device not found"]) "dev-1") = None
  /\ fst (@provider.Sony.Delete fixtures.stubRuntime fixtures.sony
            (fixtures.scripted [fixtures.respond 204 ""]) "dev-1")
     = fst (@provider.Sony.Delete fixtures.stubRuntime fixtures.sony
              (fixtures.scripted [fixtures.respond 404 "device not found"]) "dev-1").
Proof.
  apply (@Delete_not_found_is_success fixtures.stubRuntime fixtures.sony "dev-1"
           (fixtures.scripted [fixtures.respond 404 "device not found"])
           (fixtures.scripted [fixtures.respond 204 ""])
           0 0
           (mkRequest "DELETE" "http://localhost:9000/devices/dev-1"
              [("Authorization", "Bearer test-api-key")] None)
           (mkRequest "DELETE" "http://localhost:9000/devices/dev-1"
              [("Authorization", "Bearer test-api-key")] None)
           (mkResponse 404 (Ok "device not found")) (mkResponse 204 (Ok ""))).
  - apply (list_elem_of_lookup_2 _ 0%nat). reflexivity.
  - reflexivity.
  - reflexivity.
  - apply (list_elem_of_lookup_2 _ 0%nat). reflexivity.
  - reflexivity.
  - left. reflexivity.
Defined.

(** C8.  [Update] of a resource whose [Status.VendorID] is empty fails at
    once with the precondition error, and its trace is empty: no request is
    built and the vendor is not called. *)
Theorem Update_without_vendor_id_fails_at_once `{RT : Runtime}
    (s : provider.SonyProvider) (env : Env) (clk : Clock) (resource : ForgeResource) :
  VendorID (Status resource) = "" ->
  provider.Sony.Update s env clk resource
  = (Err "cannot update resource without vendor ID", []).
Proof.
  intros Hv. unfold provider.Sony.Update.
  by destruct (decide (VendorID (Status resource) = "")).
Qed.

Lemma Update_without_vendor_id_fails_at_once_witness :
  VendorID (Status fixtures.failed) = ""
  /\ @provider.Sony.Update fixtures.stubRuntime fixtures.sony
       (fixtures.scripted [fixtures.respond 200 "dev-1"]) (fixtures.stopped 7)
       fixtures.failed
     = (Err "cannot update resource without vendor ID", []).
Proof.
  split; [reflexivity|].
  apply (@Update_without_vendor_id_fails_at_once fixtures.stubRuntime).
  reflexivity.
Defined.

(** With a vendor id the same call does reach the vendor. *)
Example Update_with_vendor_id_calls_vendor :
  client.attempts
    (snd (@provider.Sony.Update fixtures.stubRuntime fixtures.sony
            (fixtures.scripted [fixtures.respond 200 "dev-1"]) (fixtures.stopped 7)
            fixtures.running))
  = [0].
Proof. reflexivity. Qed.

(** C10.  An attempt that receives a response below 500, a 4xx included,
    makes [DoWithRetry] return that response with a [nil] error; that a 4xx
    is a failure is decided by the provider afterwards: [Create] turns every
    4xx answer into its own "Sony API returned status" error. *)
Theorem DoWithRetry_nil_error_below_500 `{RT : Runtime}
    (env : Env) (req : Request) (maxRetries : Z) (n : Z) (r : Response) :
  EvDo n req ∈ snd (client.DoWithRetry env req maxRetries) ->
  clientDo env n = DoResp r ->
  StatusCode r < 500 ->
  snd (fst (client.DoWithRetry env req maxRetries)) = None
  /\ fst (fst (client.DoWithRetry env req maxRetries)) = Some r
  /\ forall s env' clk resource n' req' r' body,
      EvDo n' req' ∈ snd (provider.Sony.Create s env' clk resource) ->
      clientDo env' n' = DoResp r' ->
      400 <= StatusCode r' < 500 ->
      Body r' = Ok body ->
      fst (provider.Sony.Create s env' clk resource)
      = Err ("Sony API returned status " +:+ pretty (StatusCode r') +:+ ": " +:+ body).
Proof.
  intros Hin Hdo Hlt.
  destruct (DoWithRetry_stops env req maxRetries n req r Hin Hdo Hlt) as [-> _].
  split; [done|]. split; [done|].
  intros s env' clk resource n' req' r' body Hin' Hdo' Hst' Hbody'.
  rewrite (Create_received s env' clk resource n' req' r' body Hin' Hdo'
             ltac:(lia) Hbody').
  destruct (Z.eqb_spec (StatusCode r') 201); [lia|].
  destruct (Z.eqb_spec (StatusCode r') 200); [lia|].
  reflexivity.
Qed.

Lemma DoWithRetry_nil_error_below_500_witness :
  client.DoWithRetry (fixtures.scripted [fixtures.respond 400 "model is required"])
    fixtures.getDevice 3
  = ((Some (mkResponse 400 (Ok "model is required")), None), [EvDo 0 fixtures.getDevice])
  /\ fst (@provider.Sony.Create fixtures.stubRuntime fixtures.sony
            (fixtures.scripted [fixtures.respond 400 "model is required"])
            (fixtures.stopped 7) (fixtures.camera "cam-1"))
     = Err "Sony API returned status 400: model is required".
Proof.
  destruct (@DoWithRetry_nil_error_below_500 fixtures.stubRuntime
              (fixtures.scripted [fixtures.respond 400 "model is required"])
              fixtures.getDevice 3 0 (mkResponse 400 (Ok "model is required")))
    as (Herr & Hresp & Hcreate).
  - apply (list_elem_of_lookup_2 _ 0%nat). reflexivity.
  - reflexivity.
  - simpl. lia.
  - split; [reflexivity|].
    apply (Hcreate fixtures.sony
             (fixtures.scripted [fixtures.respond 400 "model is required"])
             (fixtures.stopped 7) (fixtures.camera "cam-1") 0
             (mkRequest "POST" "http://localhost:9000/devices"
                [("Content-Type", "application/json");
                 ("Authorization", "Bearer test-api-key");
                 ("Accept", "application/json");
                 ("X-Forge-Resource-Id", "")]
                (Some "cam-1"))
             (mkResponse 400 (Ok "model is required")) "model is required").
    + apply (list_elem_of_lookup_2 _ 0%nat). reflexivity.
    + reflexivity.
    + simpl. lia.
    + reflexivity.
Defined.

(** ** The resource handlers *)

Lemma pendingRecord_fields (clk : Clock) (resource : ForgeResource) :
  ID (controller.pendingRecord clk resource)
    = controller.generateResourceID (clk AtResourceID)
  /\ Spec (controller.pendingRecord clk resource) = Spec resource
  /\ Name (controller.pendingRecord clk resource) = Name resource
  /\ Phase (Status (controller.pendingRecord clk resource)) = "Pending".
Proof. done. Qed.

(** C4.  A POST whose vendor [Create] returns an error is not aborted: the
    handler answers 201 with the submitted record, completed with the
    generated id and the clock's timestamps, in phase [Failed] and with the
    vendor error text (behind the prefix "Vendor API error: ") as the status
    message, and it writes exactly that record to the store under its id. *)
Theorem failed_Create_is_persisted_as_Failed
    (c : controller.Controller) (resource : ForgeResource) (clk : Clock) (env : Env)
    (p : provider.VendorProvider) (e : string) (tr : list Event) :
  Name resource <> "" ->
  Type_ resource <> "" ->
  VendorType (Spec resource) <> "" ->
  controller.Providers c !! VendorType (Spec resource) = Some p ->
  provider.Create p env clk (controller.pendingRecord clk resource) = (Err e, tr) ->
  let h := controller.HandleCreateResource c (Ok resource) clk env in
  let pending := controller.pendingRecord clk resource in
  let stored :=
    set_Status (set_Message ("Vendor API error: " +:+ e)
                            (set_Phase "Failed" (Status pending))) pending in
  h = {| controller.response := controller.mkHTTP 201 (controller.ResourceBody stored);
         controller.write := Some (controller.Put (ID stored) stored);
         controller.trace := EvCall OpCreate (ID stored) :: tr |}
  /\ controller.ResourceDB (controller.served c h) !! ID stored = Some stored
  /\ ID stored = controller.generateResourceID (clk AtResourceID)
  /\ (Name stored, Type_ stored, Namespace stored, Spec stored)
     = (Name resource, Type_ resource, Namespace resource, Spec resource)
  /\ (CreatedAt stored, UpdatedAt stored) = (Some (clk AtCreatedAt), Some (clk AtUpdatedAt))
  /\ Phase (Status stored) = "Failed"
  /\ Message (Status stored) = "Vendor API error: " +:+ e.
Proof.
  intros Hname Htype Hvendor Hp Hcreate h pending stored.
  assert (Hh : h = {| controller.response :=
                        controller.mkHTTP 201 (controller.ResourceBody stored);
                      controller.write := Some (controller.Put (ID stored) stored);
                      controller.trace := EvCall OpCreate (ID stored) :: tr |}).
  { subst h stored pending. unfold controller.HandleCreateResource.
    destruct (decide (Name resource = "")); [done|].
    destruct (decide (Type_ resource = "")); [done|].
    destruct (decide (VendorType (Spec resource) = "")); [done|].
    cbn zeta.
    change (set_Status (set_Message "Resource creation initiated" _) _)
      with (controller.pendingRecord clk resource).
    change (VendorType (Spec (controller.pendingRecord clk resource)))
      with (VendorType (Spec resource)).
    rewrite Hp, Hcreate. reflexivity. }
  split; [exact Hh|]. rewrite Hh.
  split; [apply lookup_insert_eq|]. done.
Qed.

Lemma failed_Create_is_persisted_as_Failed_witness :
  let c := fixtures.fresh in
  let clk := fixtures.stopped 1700000000000000000 in
  let h := controller.HandleCreateResource c (Ok (fixtures.camera "cam-1")) clk
             fixtures.unreachable in
  let stored :=
    {| ID := "res-1700000000000000000"; Type_ := "camera"; Name := "cam-1";
       Namespace := "";
       Spec := {| VendorType := "sony"; Config := [("resolution", CfgString "4K")] |};
       Status := mkStatus "Failed"
         "Vendor API error: failed to execute Sony API request: request failed after 3 retries: connection refused"
         "" "" 0 None None 0 0 0 0;
       CreatedAt := Some 1700000000000000000;
       UpdatedAt := Some 1700000000000000000 |} in
  controller.response h = controller.mkHTTP 201 (controller.ResourceBody stored)
  /\ controller.ResourceDB (controller.served c h) !! "res-1700000000000000000"
     = Some stored.
Proof.
  intros c clk h stored.
  destruct (failed_Create_is_persisted_as_Failed c (fixtures.camera "cam-1")
              clk fixtures.unreachable
              (@provider.SonyVendorProvider fixtures.stubRuntime fixtures.sony)
              "failed to execute Sony API request: request failed after 3 retries: connection refused"
              (snd (@provider.Sony.Create fixtures.stubRuntime fixtures.sony
                      fixtures.unreachable clk
                      (controller.pendingRecord clk (fixtures.camera "cam-1")))))
    as (Hh & Hdb & _).
  - discriminate.
  - discriminate.
  - discriminate.
  - reflexivity.
  - reflexivity.
  - split; [|exact Hdb]. fold h in Hh. by rewrite Hh.
Defined.

(** C5.  A DELETE of a known record that carries a vendor id calls the
    vendor first.  If that call fails, the handler answers 500 and writes
    nothing: the record is still in the store and a GET that follows answers
    200.  The handler answers 204, and removes the record, exactly when the
    vendor call returned no error. *)
Theorem failed_vendor_Delete_keeps_the_record
    (c : controller.Controller) (id : string) (resource : ForgeResource)
    (p : provider.VendorProvider) (env : Env) :
  id <> "" ->
  controller.ResourceDB c !! id = Some resource ->
  controller.Providers c !! VendorType (Spec resource) = Some p ->
  VendorID (Status resource) <> "" ->
  let h := controller.HandleDeleteResource c id env in
  let called := provider.Delete p env (VendorID (Status resource)) in
  controller.trace h = EvCall OpDelete (VendorID (Status resource)) :: snd called
  /\ (fst called <> None ->
      controller.Code (controller.response h) = 500
      /\ controller.write h = None
      /\ controller.ResourceDB (controller.served c h) !! id = Some resource
      /\ forall clk env',
          controller.Code (controller.response
            (controller.HandleGetResource (controller.served c h) id clk env')) = 200)
  /\ (controller.Code (controller.response h) = 204 <-> fst called = None)
  /\ (controller.write h = Some (controller.Remove id) <-> fst called = None)
  /\ (controller.write h <> None -> controller.ResourceDB (controller.served c h) !! id = None).
Proof.
  intros Hid Hdb Hp Hv h called. subst h called.
  unfold controller.HandleDeleteResource.
  destruct (decide (id = "")); [done|].
  rewrite Hdb, Hp.
  destruct (decide (VendorID (Status resource) = "")); [done|].
  destruct (provider.Delete p env (VendorID (Status resource))) as [[e|] tr]; simpl.
  - split; [done|]. split.
    + intros _. repeat split; try done.
      intros clk env'. by eapply Get_found_is_200.
    + repeat split; done.
  - split; [done|]. split; [done|]. repeat split; try done.
    intros _. apply lookup_delete_eq.
Qed.

Lemma failed_vendor_Delete_keeps_the_record_witness :
  let c := fixtures.holding fixtures.running in
  let down := fixtures.scripted (replicate 4 (fixtures.respond 500 "internal error")) in
  let h := controller.HandleDeleteResource c "res-1" down in
  controller.Code (controller.response h) = 500
  /\ controller.ResourceDB (controller.served c h) !! "res-1" = Some fixtures.running
  /\ length (client.attempts (controller.trace h)) = 4%nat.
Proof.
  intros c down h.
  destruct (failed_vendor_Delete_keeps_the_record c "res-1" fixtures.running
              (@provider.SonyVendorProvider fixtures.stubRuntime fixtures.sony) down)
    as (Htrace & Hfail & _).
  - discriminate.
  - reflexivity.
  - reflexivity.
  - discriminate.
  - destruct Hfail as (Hcode & _ & Hkept & _); [discriminate|].
    split; [exact Hcode|]. split; [exact Hkept|].
    fold h in Htrace. rewrite Htrace. reflexivity.
Defined.

(** C9.  A DELETE of a stored record whose vendor id is empty makes no
    provider call at all: the trace is empty, the record is removed from the
    store and the answer is 204 with no body. *)
Theorem Delete_without_vendor_id_skips_the_vendor
    (c : controller.Controller) (id : string) (resource : ForgeResource)
    (p : provider.VendorProvider) (env : Env) :
  id <> "" ->
  controller.ResourceDB c !! id = Some resource ->
  controller.Providers c !! VendorType (Spec resource) = Some p ->
  VendorID (Status resource) = "" ->
  let h := controller.HandleDeleteResource c id env in
  controller.trace h = []
  /\ controller.write h = Some (controller.Remove id)
  /\ controller.response h = controller.mkHTTP 204 controller.NoBody
  /\ controller.ResourceDB (controller.served c h) !! id = None.
Proof.
  intros Hid Hdb Hp Hv h. subst h.
  unfold controller.HandleDeleteResource.
  destruct (decide (id = "")); [done|].
  rewrite Hdb, Hp.
  destruct (decide (VendorID (Status resource) = "")); [|done].
  simpl. repeat split. apply lookup_delete_eq.
Qed.

Lemma Delete_without_vendor_id_skips_the_vendor_witness :
  let c := fixtures.holding fixtures.failed in
  let h := controller.HandleDeleteResource c "res-1" fixtures.unreachable in
  controller.trace h = []
  /\ controller.write h = Some (controller.Remove "res-1")
  /\ controller.response h = controller.mkHTTP 204 controller.NoBody
  /\ controller.ResourceDB (controller.served c h) !! "res-1" = None.
Proof.
  apply (Delete_without_vendor_id_skips_the_vendor (fixtures.holding fixtures.failed)
           "res-1" fixtures.failed
           (@provider.SonyVendorProvider fixtures.stubRuntime fixtures.sony)
           fixtures.unreachable).
  - discriminate.
  - reflexivity.
  - reflexivity.
  - reflexivity.
Defined.

(** The scenario of the specification: creating [cam-1] against a vendor
    that answers with device [dev-1] in state active gives 201, phase
    [Running] and vendor id [dev-1]. *)
Example create_cam_1 :
  exists stored,
    controller.response
      (controller.HandleCreateResource fixtures.fresh (Ok (fixtures.camera "cam-1"))
         (fixtures.stopped 1700000000000000000)
         (fixtures.scripted [fixtures.respond 201 "dev-1"]))
    = controller.mkHTTP 201 (controller.ResourceBody stored)
    /\ ID stored = "res-1700000000000000000"
    /\ Phase (Status stored) = "Running"
    /\ VendorID (Status stored) = "dev-1".
Proof. eexists. split; [reflexivity|]. by vm_compute. Qed.

(** C3.  Two creates that read the same nanosecond at [generateResourceID]
    are both answered 201 with the same id: the ids of [cam-1] and [cam-2]
    below are equal, and once both writes are committed the store holds the
    second record alone, the first one overwritten. *)
Theorem creates_in_one_nanosecond_share_an_id :
  let now := fixtures.stopped 1700000000000000000 in
  let h1 := controller.HandleCreateResource fixtures.fresh (Ok (fixtures.camera "cam-1"))
              now (fixtures.scripted [fixtures.respond 201 "dev-1"]) in
  let h2 := controller.HandleCreateResource fixtures.fresh (Ok (fixtures.camera "cam-2"))
              now (fixtures.scripted [fixtures.respond 201 "dev-2"]) in
  exists r1 r2,
    controller.response h1 = controller.mkHTTP 201 (controller.ResourceBody r1)
    /\ controller.response h2 = controller.mkHTTP 201 (controller.ResourceBody r2)
    /\ (Name r1, VendorID (Status r1), Phase (Status r1)) = ("cam-1", "dev-1", "Running")
    /\ (Name r2, VendorID (Status r2), Phase (Status r2)) = ("cam-2", "dev-2", "Running")
    /\ ID r1 = "res-1700000000000000000"
    /\ ID r2 = ID r1
    /\ controller.commit (controller.write h2)
         (controller.commit (controller.write h1) (controller.ResourceDB fixtures.fresh))
       = {[ ID r2 := r2 ]}.
Proof.
  intros now h1 h2. eexists. eexists.
  split; [reflexivity|]. split; [reflexivity|].
  repeat split; by vm_compute.
Qed.

(** * Further properties *)

(** ** The executor: order of attempts, backoffs, cancellation, exhaustion *)

Section ExecutorMore.
Import client.
Variables (env : Env) (req : Request) (maxRetries : Z).

Lemma backoffs_app tr1 tr2 : backoffs (tr1 ++ tr2) = backoffs tr1 ++ backoffs tr2.
Proof. unfold backoffs. apply omap_app. Qed.

Lemma backoffs_pause attempt resp lastErr d :
  backoffs (closeBefore attempt resp lastErr ++ [EvBackoff attempt d]) = [(attempt, d)].
Proof. by destruct lastErr, resp. Qed.

Lemma EvBackoff_in_pause n d attempt resp lastErr d' :
  EvBackoff n d ∈ closeBefore attempt resp lastErr ++ [EvBackoff attempt d'] ->
  n = attempt /\ d = d'.
Proof.
  intros Hin. apply elem_of_app in Hin as [Hin|Hin].
  - destruct lastErr, resp; simpl in Hin;
      repeat (apply elem_of_cons in Hin as [Hin|Hin]; [discriminate|]);
      by apply elem_of_nil in Hin.
  - apply list_elem_of_singleton in Hin. by inversion Hin.
Qed.

(** The attempts of a run are numbered consecutively from where the loop
    was entered. *)
Lemma retryLoop_consecutive fuel attempt resp lastErr r tr :
  retryLoop fuel env req maxRetries attempt resp lastErr = Some (r, tr) ->
  attempts tr = seqZ attempt (Z.of_nat (length (attempts tr))).
Proof.
  revert attempt resp lastErr r tr.
  induction fuel as [|fuel IH]; intros attempt resp lastErr r tr E; [discriminate|].
  assert (Hone : forall l, attempts l = [] ->
                 attempts (EvDo attempt req :: l) = seqZ attempt
                   (Z.of_nat (length (attempts (EvDo attempt req :: l))))).
  { intros l Hl. rewrite attempts_do, Hl. reflexivity. }
  apply retryLoop_step in E
    as [(_ & _ & ->)|[(_ & _ & -> & _)|(Hle & _ & resp' & lastErr' & _ & E)]];
    [done..|].
  destruct E as [(_ & _ & ->)|[(_ & _ & _ & ->)|[(_ & _ & _ & _ & ->)|E]]].
  - by apply Hone.
  - by apply Hone.
  - apply Hone, attempts_closeBefore.
  - destruct E as (_ & Hlt & _ & tr' & E & ->).
    apply IH in E.
    rewrite attempts_do, attempts_app, attempts_closeBefore. simpl attempts.
    cbn [app length]. rewrite Nat2Z.inj_succ, seqZ_cons by lia.
    f_equal. rewrite Z.pred_succ. exact E.
Qed.

(** Every backoff entered follows an attempt below [maxRetries] and waits
    the delay computed for that attempt. *)
Lemma retryLoop_backoffs fuel attempt resp lastErr r tr n d :
  retryLoop fuel env req maxRetries attempt resp lastErr = Some (r, tr) ->
  EvBackoff n d ∈ tr ->
  attempt <= n < maxRetries /\ d = backoffDelay n.
Proof.
  revert attempt resp lastErr r tr.
  induction fuel as [|fuel IH]; intros attempt resp lastErr r tr E Hin; [discriminate|].
  apply retryLoop_step in E
    as [(_ & _ & ->)|[(_ & _ & -> & _)|(Hle & _ & resp' & lastErr' & _ & E)]];
    [by apply elem_of_nil in Hin..|].
  destruct E as [(_ & _ & ->)|[(_ & _ & _ & ->)|[(_ & Hlt & _ & _ & ->)|E]]].
  - apply list_elem_of_singleton in Hin. discriminate.
  - apply list_elem_of_singleton in Hin. discriminate.
  - apply elem_of_cons in Hin as [Hin|Hin]; [discriminate|].
    apply EvBackoff_in_pause in Hin as [-> ->]. lia.
  - destruct E as (_ & Hlt & _ & tr' & E & ->).
    apply elem_of_cons in Hin as [Hin|Hin]; [discriminate|].
    apply elem_of_app in Hin as [Hin|Hin].
    + apply EvBackoff_in_pause in Hin as [-> ->]. lia.
    + destruct (IH _ _ _ _ _ E Hin) as [Hn ->]. lia.
Qed.

(** No attempt is issued once the context is done, and a backoff in which
    the context is done ends the call. *)
Lemma retryLoop_cancel fuel attempt resp lastErr r tr :
  retryLoop fuel env req maxRetries attempt resp lastErr = Some (r, tr) ->
  (forall n req', EvDo n req' ∈ tr -> ctxDoneBefore env n = false)
  /\ (forall n d, EvBackoff n d ∈ tr -> ctxDoneInBackoff env n = true ->
      r = (None, Some ("request cancelled during backoff: " +:+ ctxErr env))
      /\ exists tr0, tr = tr0 ++ [EvBackoff n d]).
Proof.
  revert attempt resp lastErr r tr.
  induction fuel as [|fuel IH]; intros attempt resp lastErr r tr E; [discriminate|].
  apply retryLoop_step in E
    as [(_ & _ & ->)|[(_ & _ & -> & _)|(Hle & Hgo & resp' & lastErr' & _ & E)]];
    [by split; intros; exfalso; eapply elem_of_nil..|].
  destruct E as [(_ & _ & ->)|[(_ & _ & _ & ->)|[(_ & _ & Hdone & -> & ->)|E]]].
  - split.
    + intros n req' Hin. apply list_elem_of_singleton in Hin. by inversion Hin; subst.
    + intros n d Hin. apply list_elem_of_singleton in Hin. discriminate.
  - split.
    + intros n req' Hin. apply list_elem_of_singleton in Hin. by inversion Hin; subst.
    + intros n d Hin. apply list_elem_of_singleton in Hin. discriminate.
  - split.
    + intros n req' Hin. apply elem_of_cons in Hin as [Hin|Hin].
      * by inversion Hin; subst.
      * by apply EvDo_not_in_pause in Hin.
    + intros n d Hin _. apply elem_of_cons in Hin as [Hin|Hin]; [discriminate|].
      apply EvBackoff_in_pause in Hin as [-> ->]. split; [done|].
      exists (EvDo attempt req :: closeBefore attempt resp' lastErr').
      by rewrite <- app_comm_cons.
  - destruct E as (_ & Hlt & Hwait & tr' & E & ->).
    destruct (IH _ _ _ _ _ E) as [IHdo IHback]. split.
    + intros n req' Hin. apply elem_of_cons in Hin as [Hin|Hin].
      * by inversion Hin; subst.
      * apply elem_of_app in Hin as [Hin|Hin]; [by apply EvDo_not_in_pause in Hin|].
        eauto.
    + intros n d Hin Hdone. apply elem_of_cons in Hin as [Hin|Hin]; [discriminate|].
      apply elem_of_app in Hin as [Hin|Hin].
      * apply EvBackoff_in_pause in Hin as [-> ->]. congruence.
      * destruct (IHback _ _ Hin Hdone) as (-> & tr0 & ->). split; [done|].
        exists (EvDo attempt req
                  :: (closeBefore attempt resp' lastErr'
                      ++ [EvBackoff attempt (backoffDelay attempt)]) ++ tr0).
        by rewrite !app_comm_cons, <- !app_assoc.
Qed.

(** A [nil] error is returned only with a response below 500, received at
    the last attempt of the run. *)
Lemma retryLoop_success_only fuel attempt resp lastErr resp' tr :
  retryLoop fuel env req maxRetries attempt resp lastErr = Some ((resp', None), tr) ->
  attempt <= maxRetries ->
  exists r n tr0,
    resp' = Some r /\ StatusCode r < 500 /\ clientDo env n = DoResp r
    /\ tr = tr0 ++ [EvDo n req].
Proof.
  revert attempt resp lastErr tr.
  induction fuel as [|fuel IH]; intros attempt resp lastErr tr E Hle; [discriminate|].
  apply retryLoop_step in E
    as [(Hgt & _)|[(_ & _ & _ & E)|(_ & _ & resp1 & lastErr1 & Hres & E)]];
    [lia|discriminate|].
  destruct E as [(Hok & E & ->)|[(Hok & _ & E & _)|[(_ & _ & _ & E & _)|E]]].
  - inversion E; subst.
    destruct (clientDo env attempt) as [e|r0] eqn:Hdo; inversion Hres; subst;
      [discriminate|].
    exists r0, attempt, []. repeat split; try done. simpl in Hok. lia.
  - destruct (clientDo env attempt) as [e|r0] eqn:Hdo; inversion Hres; subst;
      [discriminate|].
    simpl in Hok, E. apply Z.ltb_ge in Hok.
    destruct (Z.geb_spec (StatusCode r0) 500); [discriminate|lia].
  - discriminate.
  - destruct E as (_ & Hlt & _ & tr' & E & ->).
    destruct (IH _ _ _ _ E) as (r & n & tr0 & -> & Hst & Hdo & ->); [lia|].
    exists r, n, (EvDo attempt req
                   :: (closeBefore attempt resp1 lastErr1
                       ++ [EvBackoff attempt (backoffDelay attempt)]) ++ tr0).
    repeat split; try done. by rewrite !app_comm_cons, <- !app_assoc.
Qed.

(** When every attempt fails in a retryable way and the context is never
    done, all attempts up to [maxRetries] are issued and the failure of the
    last one is what the caller gets. *)
Lemma retryLoop_exhausts fuel attempt resp lastErr r tr :
  retryLoop fuel env req maxRetries attempt resp lastErr = Some (r, tr) ->
  attempt <= maxRetries ->
  (forall k, attempt <= k <= maxRetries ->
             ctxDoneBefore env k = false /\ retryable (clientDo env k)) ->
  (forall k, attempt <= k < maxRetries -> ctxDoneInBackoff env k = false) ->
  attempts tr = seqZ attempt (maxRetries + 1 - attempt)
  /\ r = afterLoop maxRetries (fst (outcomeVars (clientDo env maxRetries)))
                              (snd (outcomeVars (clientDo env maxRetries))).
Proof.
  revert attempt resp lastErr r tr.
  induction fuel as [|fuel IH]; intros attempt resp lastErr r tr E Hle Hfail Hwait;
    [discriminate|].
  destruct (Hfail attempt ltac:(lia)) as [Hgo Hretry].
  apply retryLoop_step in E
    as [(Hgt & _)|[(_ & Hdone & _)|(_ & _ & resp1 & lastErr1 & Hres & E)]];
    [lia|congruence|].
  assert (Hvars : (resp1, lastErr1) = outcomeVars (clientDo env attempt)) by done.
  assert (Hnot : received_ok resp1 lastErr1 = false).
  { destruct (clientDo env attempt) as [e|r0]; inversion Hres; subst; [done|].
    simpl in *. by apply Z.ltb_ge. }
  destruct E as [(Hok & _)|[(_ & -> & -> & ->)|[(_ & Hlt & Hdone & _)|E]]].
  - congruence.
  - rewrite <- Hvars. simpl. split; [|done].
    replace (maxRetries + 1 - maxRetries) with 1 by lia. reflexivity.
  - rewrite Hwait in Hdone by lia. discriminate.
  - destruct E as (_ & Hlt & _ & tr' & E & ->).
    destruct (IH _ _ _ _ _ E) as [Hatt ->]; [lia|intros; apply Hfail; lia
                                             |intros; apply Hwait; lia|].
    split; [|done].
    rewrite attempts_do, attempts_app, attempts_closeBefore. simpl app.
    rewrite Hatt, (seqZ_cons attempt) by lia. f_equal. f_equal. lia.
Qed.

End ExecutorMore.

Lemma DoWithRetry_success_only (env : Env) (req : Request) (maxRetries : Z) resp tr :
  0 <= maxRetries ->
  client.DoWithRetry env req maxRetries = ((resp, None), tr) ->
  exists r n tr0,
    resp = Some r /\ StatusCode r < 500 /\ clientDo env n = DoResp r
    /\ tr = tr0 ++ [EvDo n req].
Proof.
  intros Hpos E. pose proof (DoWithRetry_fuel env req maxRetries) as Hrun.
  rewrite E in Hrun. by eapply retryLoop_success_only.
Qed.

(** X1.  The attempts of a call are numbered 0, 1, 2, ... without gap or
    repetition, in the order they are issued. *)
Theorem DoWithRetry_attempts_are_consecutive
    (env : Env) (req : Request) (maxRetries : Z) :
  client.attempts (snd (client.DoWithRetry env req maxRetries))
  = seqZ 0 (Z.of_nat (length (client.attempts (snd (client.DoWithRetry env req maxRetries))))).
Proof.
  pose proof (DoWithRetry_fuel env req maxRetries) as E.
  destruct (client.DoWithRetry env req maxRetries) as [r tr].
  by eapply retryLoop_consecutive.
Qed.

(** X2.  In a call with at most 37 retries, every backoff follows an attempt
    [n] below the retry count and waits exactly [min(5 s, 100 ms * 2^n)], a
    delay between 100 ms and 5 s. *)
Theorem DoWithRetry_backoffs_follow_the_schedule
    (env : Env) (req : Request) (maxRetries : Z) (n d : Z) :
  maxRetries <= 37 ->
  EvBackoff n d ∈ snd (client.DoWithRetry env req maxRetries) ->
  0 <= n < maxRetries
  /\ d = Z.min (5 * time.Second) (100 * time.Millisecond * 2 ^ n)
  /\ 100 * time.Millisecond <= d <= 5 * time.Second.
Proof.
  intros Hmax Hin.
  pose proof (DoWithRetry_fuel env req maxRetries) as E.
  destruct (client.DoWithRetry env req maxRetries) as [r tr]. simpl in Hin.
  destruct (retryLoop_backoffs _ _ _ _ _ _ _ _ _ _ _ E Hin) as [Hn ->].
  rewrite backoffDelay_small by lia.
  split; [done|]. split; [done|].
  assert (1 <= 2 ^ n) by (apply (Z.pow_le_mono_r 2 0 n); lia).
  unfold time.Second, time.Millisecond. lia.
Qed.

Lemma DoWithRetry_backoffs_follow_the_schedule_witness :
  3 <= 37
  /\ 0 <= 1 < 3
  /\ 200 * time.Millisecond = Z.min (5 * time.Second) (100 * time.Millisecond * 2 ^ 1)
  /\ 100 * time.Millisecond <= 200 * time.Millisecond <= 5 * time.Second.
Proof.
  split; [lia|].
  apply (DoWithRetry_backoffs_follow_the_schedule fixtures.unreachable
           fixtures.getDevice 3 1 (200 * time.Millisecond)).
  - lia.
  - apply (list_elem_of_lookup_2 _ 3%nat). reflexivity.
Defined.

(** X3.  Cancellation: no attempt is issued at a check that finds the
    context done; a backoff during which the context is done is the last
    event of the call, which returns no response and the error "request
    cancelled during backoff"; and a context already done when the call
    starts gives "request cancelled" with no attempt at all. *)
Theorem DoWithRetry_stops_on_cancellation
    (env : Env) (req : Request) (maxRetries : Z) :
  (forall n req', EvDo n req' ∈ snd (client.DoWithRetry env req maxRetries) ->
                  ctxDoneBefore env n = false)
  /\ (forall n d, EvBackoff n d ∈ snd (client.DoWithRetry env req maxRetries) ->
                  ctxDoneInBackoff env n = true ->
      fst (client.DoWithRetry env req maxRetries)
        = (None, Some ("request cancelled during backoff: " +:+ ctxErr env))
      /\ exists tr0, snd (client.DoWithRetry env req maxRetries) = tr0 ++ [EvBackoff n d])
  /\ (0 <= maxRetries -> ctxDoneBefore env 0 = true ->
      client.DoWithRetry env req maxRetries
        = ((None, Some ("request cancelled: " +:+ ctxErr env)), [])).
Proof.
  pose proof (DoWithRetry_fuel env req maxRetries) as E.
  destruct (client.DoWithRetry env req maxRetries) as [r tr] eqn:Hrun.
  destruct (retryLoop_cancel _ _ _ _ _ _ _ _ _ E) as [Hdo Hback].
  split; [exact Hdo|]. split; [exact Hback|].
  intros Hpos Hdone.
  apply retryLoop_step in E
    as [(Hgt & _)|[(_ & _ & -> & ->)|(_ & Hgo & _)]]; [lia|done|congruence].
Qed.

(** X4.  With a retry count that is not negative, the executor never
    succeeds silently: a [nil] error comes only with a response whose status
    is below 500, and that response is the one received at the last attempt
    issued. *)
Theorem DoWithRetry_nil_error_only_below_500
    (env : Env) (req : Request) (maxRetries : Z) :
  0 <= maxRetries ->
  snd (fst (client.DoWithRetry env req maxRetries)) = None ->
  exists r n tr0,
    fst (fst (client.DoWithRetry env req maxRetries)) = Some r
    /\ StatusCode r < 500
    /\ clientDo env n = DoResp r
    /\ snd (client.DoWithRetry env req maxRetries) = tr0 ++ [EvDo n req].
Proof.
  intros Hpos Herr.
  destruct (client.DoWithRetry env req maxRetries) as [[resp err] tr] eqn:E.
  simpl in *. subst err. by eapply DoWithRetry_success_only.
Qed.

Lemma DoWithRetry_nil_error_only_below_500_witness :
  let env := fixtures.scripted [fixtures.respond 503 "busy"; fixtures.respond 404 "gone"] in
  exists r n tr0,
    fst (fst (client.DoWithRetry env fixtures.getDevice 3)) = Some r
    /\ StatusCode r < 500
    /\ clientDo env n = DoResp r
    /\ snd (client.DoWithRetry env fixtures.getDevice 3) = tr0 ++ [EvDo n fixtures.getDevice].
Proof.
  intros env.
  apply (DoWithRetry_nil_error_only_below_500 env fixtures.getDevice 3).
  - lia.
  - reflexivity.
Defined.

(** X5.  When every attempt fails in a retryable way (transport error or a
    status of 500 and above) and the context is never done, the executor
    issues exactly the attempts 0 to [maxRetries] and returns the failure of
    the last one, with an error that is not [nil]. *)
Theorem DoWithRetry_exhausted_returns_last_failure
    (env : Env) (req : Request) (maxRetries : Z) :
  0 <= maxRetries ->
  (forall k, 0 <= k <= maxRetries ->
             ctxDoneBefore env k = false /\ retryable (clientDo env k)) ->
  (forall k, 0 <= k < maxRetries -> ctxDoneInBackoff env k = false) ->
  client.attempts (snd (client.DoWithRetry env req maxRetries)) = seqZ 0 (maxRetries + 1)
  /\ fst (client.DoWithRetry env req maxRetries)
     = client.afterLoop maxRetries (fst (outcomeVars (clientDo env maxRetries)))
                                   (snd (outcomeVars (clientDo env maxRetries)))
  /\ snd (fst (client.DoWithRetry env req maxRetries)) <> None.
Proof.
  intros Hpos Hfail Hwait.
  pose proof (DoWithRetry_fuel env req maxRetries) as E.
  destruct (client.DoWithRetry env req maxRetries) as [r tr]. simpl.
  destruct (retryLoop_exhausts _ _ _ _ _ _ _ _ _ E ltac:(lia) Hfail Hwait) as [Hatt ->].
  rewrite Z.sub_0_r in Hatt. split; [done|]. split; [done|].
  destruct (Hfail maxRetries ltac:(lia)) as [_ Hretry].
  destruct (clientDo env maxRetries) as [e|r0]; simpl in *; [done|].
  destruct (Z.geb_spec (StatusCode r0) 500); [done|lia].
Qed.

Lemma DoWithRetry_exhausted_returns_last_failure_witness :
  client.attempts (snd (client.DoWithRetry fixtures.unreachable fixtures.getDevice 3))
    = [0; 1; 2; 3]
  /\ fst (client.DoWithRetry fixtures.unreachable fixtures.getDevice 3)
     = (None, Some "request failed after 3 retries: connection refused").
Proof.
  destruct (DoWithRetry_exhausted_returns_last_failure fixtures.unreachable
              fixtures.getDevice 3) as (Hatt & Hres & _).
  - lia.
  - intros k Hk. split; [reflexivity|]. simpl. by destruct (Z.to_nat k).
  - reflexivity.
  - split; [exact Hatt|exact Hres].
Defined.

(** ** The provider: what a success rests on *)

Section ProviderMore.
Import provider.
Context `{RT : Runtime}.

Lemma Create_Ok_inv s env clk resource st :
  fst (Sony.Create s env clk resource) = Ok st ->
  accepted [201; 200] env (snd (Sony.Create s env clk resource))
  /\ exists sonyResponse, st = Sony.buildResourceStatus clk sonyResponse.
Proof.
  unfold Sony.Create, Sony.parseStatus.
  destruct (marshalSonyRequest resource) as [requestBody|e]; [|done].
  destruct (NewRequestWithContext _ _ _) as [req|e]; [|done].
  simpl. destruct (client.DoWithRetry env _ 3) as [[resp err] tr] eqn:E.
  destruct err; [done|]. destruct resp as [r|]; [|done].
  apply DoWithRetry_success_only in E as (r' & n & tr0 & [= <-] & _ & Hdo & ->); [|lia].
  destruct (Body r) as [respBody|e]; [|done].
  destruct (Z.eqb_spec (StatusCode r) 201) as [H201|H201];
    destruct (Z.eqb_spec (StatusCode r) 200) as [H200|H200]; simpl; try done;
    (destruct (unmarshalSonyResponse respBody) as [sonyResponse|e]; [|done]);
    intros [= <-]; (split; [|by eexists]);
    eexists n, _, r, tr0; (split; [done|]); (split; [|done]);
    rewrite ?H201, ?H200; set_solver.
Qed.

Lemma Update_Ok_inv s env clk resource st :
  fst (Sony.Update s env clk resource) = Ok st ->
  VendorID (Status resource) <> ""
  /\ accepted [200] env (snd (Sony.Update s env clk resource))
  /\ exists sonyResponse, st = Sony.buildResourceStatus clk sonyResponse.
Proof.
  unfold Sony.Update, Sony.parseStatus.
  destruct (decide (VendorID (Status resource) = "")) as [Hv|Hv]; [done|].
  destruct (marshalSonyRequest resource) as [requestBody|e]; [|done].
  destruct (NewRequestWithContext _ _ _) as [req|e]; [|done].
  simpl. destruct (client.DoWithRetry env _ 3) as [[resp err] tr] eqn:E.
  destruct err; [done|]. destruct resp as [r|]; [|done].
  apply DoWithRetry_success_only in E as (r' & n & tr0 & [= <-] & _ & Hdo & ->); [|lia].
  destruct (Body r) as [respBody|e]; [|done].
  destruct (Z.eqb_spec (StatusCode r) 200) as [H200|H200]; simpl; [|done].
  destruct (unmarshalSonyResponse respBody) as [sonyResponse|e]; [|done].
  intros [= <-]. split; [done|]. split; [|by eexists].
  eexists n, _, r, tr0. split; [done|]. split; [|done]. rewrite H200. set_solver.
Qed.

Lemma Read_Ok_inv s env clk vendorID st :
  fst (Sony.Read s env clk vendorID) = Ok st ->
  accepted [404; 200] env (snd (Sony.Read s env clk vendorID))
  /\ ((Phase st = "Failed" /\ VendorID st = vendorID)
      \/ exists sonyResponse, st = Sony.buildResourceStatus clk sonyResponse).
Proof.
  unfold Sony.Read, Sony.parseStatus.
  destruct (NewRequestWithContext _ _ _) as [req|e]; [|done].
  simpl. destruct (client.DoWithRetry env _ 3) as [[resp err] tr] eqn:E.
  destruct err; [done|]. destruct resp as [r|]; [|done].
  apply DoWithRetry_success_only in E as (r' & n & tr0 & [= <-] & _ & Hdo & ->); [|lia].
  destruct (Body r) as [respBody|e]; [|done].
  destruct (Z.eqb_spec (StatusCode r) 404) as [H404|H404]; simpl.
  { intros [= <-]. split; [|by left].
    eexists n, _, r, tr0. split; [done|]. split; [|done]. rewrite H404. set_solver. }
  destruct (Z.eqb_spec (StatusCode r) 200) as [H200|H200]; simpl; [|done].
  destruct (unmarshalSonyResponse respBody) as [sonyResponse|e]; [|done].
  intros [= <-]. split; [|right; by eexists].
  eexists n, _, r, tr0. split; [done|]. split; [|done]. rewrite H200. set_solver.
Qed.

Lemma Delete_nil_inv s env vendorID :
  fst (Sony.Delete s env vendorID) = None ->
  accepted [204; 200; 404] env (snd (Sony.Delete s env vendorID)).
Proof.
  unfold Sony.Delete.
  destruct (NewRequestWithContext _ _ _) as [req|e]; [|done].
  simpl. destruct (client.DoWithRetry env _ 3) as [[resp err] tr] eqn:E.
  destruct err; [done|]. destruct resp as [r|]; [|done].
  apply DoWithRetry_success_only in E as (r' & n & tr0 & [= <-] & _ & Hdo & ->); [|lia].
  destruct (Z.eqb_spec (StatusCode r) 204) as [H204|H204];
    destruct (Z.eqb_spec (StatusCode r) 200) as [H200|H200];
    destruct (Z.eqb_spec (StatusCode r) 404) as [H404|H404]; simpl; try done;
    intros _; eexists n, _, r, tr0; (split; [done|]); (split; [|done]);
    rewrite ?H204, ?H200, ?H404; set_solver.
Qed.

End ProviderMore.

Lemma DoWithRetry_backoff_inv (env : Env) (req : Request) (maxRetries n d : Z) :
  EvBackoff n d ∈ snd (client.DoWithRetry env req maxRetries) ->
  0 <= n < maxRetries /\ d = client.backoffDelay n.
Proof.
  intros Hin. pose proof (DoWithRetry_fuel env req maxRetries) as E.
  destruct (client.DoWithRetry env req maxRetries) as [r tr].
  by eapply retryLoop_backoffs.
Qed.

Section ProviderTraces.
Import provider.
Context `{RT : Runtime}.

Lemma Create_oneCall s env clk resource :
  oneCall env (snd (Sony.Create s env clk resource)).
Proof.
  unfold Sony.Create.
  destruct (marshalSonyRequest resource) as [requestBody|e]; [|by left].
  destruct (NewRequestWithContext _ _ _) as [req|e]; [|by left].
  simpl. right.
  match goal with
  | |- context [client.DoWithRetry env ?rq 3] =>
      exists rq; destruct (client.DoWithRetry env rq 3) as [[resp err] tr]
  end.
  destruct err, resp as [r|]; try done.
  destruct (Body r); [|done].
  by destruct (negb (StatusCode r =? 201) && negb (StatusCode r =? 200)).
Qed.

Lemma Read_oneCall s env clk vendorID :
  oneCall env (snd (Sony.Read s env clk vendorID)).
Proof.
  unfold Sony.Read.
  destruct (NewRequestWithContext _ _ _) as [req|e]; [|by left].
  simpl. right.
  match goal with
  | |- context [client.DoWithRetry env ?rq 3] =>
      exists rq; destruct (client.DoWithRetry env rq 3) as [[resp err] tr]
  end.
  destruct err, resp as [r|]; try done.
  destruct (Body r); [|done].
  destruct (StatusCode r =? 404); [done|].
  by destruct (negb (StatusCode r =? 200)).
Qed.

Lemma Update_oneCall s env clk resource :
  oneCall env (snd (Sony.Update s env clk resource)).
Proof.
  unfold Sony.Update.
  destruct (decide (VendorID (Status resource) = "")); [by left|].
  destruct (marshalSonyRequest resource) as [requestBody|e]; [|by left].
  destruct (NewRequestWithContext _ _ _) as [req|e]; [|by left].
  simpl. right.
  match goal with
  | |- context [client.DoWithRetry env ?rq 3] =>
      exists rq; destruct (client.DoWithRetry env rq 3) as [[resp err] tr]
  end.
  destruct err, resp as [r|]; try done.
  destruct (Body r); [|done].
  by destruct (negb (StatusCode r =? 200)).
Qed.

Lemma Delete_oneCall s env vendorID :
  oneCall env (snd (Sony.Delete s env vendorID)).
Proof.
  unfold Sony.Delete.
  destruct (NewRequestWithContext _ _ _) as [req|e]; [|by left].
  simpl. right.
  match goal with
  | |- context [client.DoWithRetry env ?rq 3] =>
      exists rq; destruct (client.DoWithRetry env rq 3) as [[resp err] tr]
  end.
  destruct err, resp as [r|]; try done.
  by destruct ((StatusCode r =? 204) || (StatusCode r =? 200) || (StatusCode r =? 404)).
Qed.

Lemma oneCall_bounded env tr :
  oneCall env tr ->
  (length (client.attempts tr) <= 4)%nat
  /\ forall n d, EvBackoff n d ∈ tr ->
       d ∈ [100 * time.Millisecond; 200 * time.Millisecond; 400 * time.Millisecond].
Proof.
  intros [->|[req ->]].
  - split; [simpl; lia|]. intros n d Hin. by apply elem_of_nil in Hin.
  - split; [apply (DoWithRetry_attempts env req 3)|].
    intros n d Hin. apply DoWithRetry_backoff_inv in Hin as [Hn ->].
    assert (Hcase : n = 0 \/ n = 1 \/ n = 2) by lia. clear Hn.
    destruct Hcase as [->|[->| ->]]; vm_compute; set_solver.
Qed.

End ProviderTraces.

(** X6.  A provider method reports success only on a vendor answer it
    accepts: [Create] on 201 or 200, [Read] on 404 or 200, [Update] on 200
    (and only for a resource that has a vendor id), [Delete] on 204, 200 or
    404; the accepting attempt is the last event of the method's trace. *)
Theorem provider_success_rests_on_an_accepted_answer `{RT : Runtime}
    (s : provider.SonyProvider) (env : Env) (clk : Clock)
    (resource : ForgeResource) (vendorID : string) :
  (forall st, fst (provider.Sony.Create s env clk resource) = Ok st ->
     accepted [201; 200] env (snd (provider.Sony.Create s env clk resource)))
  /\ (forall st, fst (provider.Sony.Read s env clk vendorID) = Ok st ->
     accepted [404; 200] env (snd (provider.Sony.Read s env clk vendorID)))
  /\ (forall st, fst (provider.Sony.Update s env clk resource) = Ok st ->
     VendorID (Status resource) <> ""
     /\ accepted [200] env (snd (provider.Sony.Update s env clk resource)))
  /\ (fst (provider.Sony.Delete s env vendorID) = None ->
     accepted [204; 200; 404] env (snd (provider.Sony.Delete s env vendorID))).
Proof.
  split; [|split; [|split]].
  - intros st E. by apply Create_Ok_inv in E as [? _].
  - intros st E. by apply Read_Ok_inv in E as [? _].
  - intros st E. by apply Update_Ok_inv in E as (? & ? & _).
  - apply Delete_nil_inv.
Qed.

Lemma buildResourceStatus_phase (clk : Clock) (response : SonyDeviceResponse) :
  Phase (provider.Sony.buildResourceStatus clk response)
  ∈ ["Running"; "Pending"; "Provisioning"; "Failed"; "Updating"; "Unknown"].
Proof.
  unfold provider.Sony.buildResourceStatus.
  destruct (StreamStatus response);
    repeat (destruct (decide _); [simpl; set_solver|]); simpl; set_solver.
Qed.

(** X7.  Every status a provider method returns carries one of the six
    phases Pending, Running, Provisioning, Updating, Failed, Unknown. *)
Theorem provider_status_phase_is_known `{RT : Runtime}
    (s : provider.SonyProvider) (env : Env) (clk : Clock)
    (resource : ForgeResource) (vendorID : string) (st : ResourceStatus) :
  fst (provider.Sony.Create s env clk resource) = Ok st
  \/ fst (provider.Sony.Read s env clk vendorID) = Ok st
  \/ fst (provider.Sony.Update s env clk resource) = Ok st ->
  Phase st ∈ ["Running"; "Pending"; "Provisioning"; "Failed"; "Updating"; "Unknown"].
Proof.
  intros [E|[E|E]].
  - apply Create_Ok_inv in E as (_ & sonyResponse & ->). apply buildResourceStatus_phase.
  - apply Read_Ok_inv in E as (_ & [[-> _]|(sonyResponse & ->)]); [set_solver|].
    apply buildResourceStatus_phase.
  - apply Update_Ok_inv in E as (_ & _ & sonyResponse & ->).
    apply buildResourceStatus_phase.
Qed.

Lemma provider_status_phase_is_known_witness :
  "Failed" ∈ ["Running"; "Pending"; "Provisioning"; "Failed"; "Updating"; "Unknown"].
Proof.
  apply (@provider_status_phase_is_known fixtures.stubRuntime fixtures.sony
           (fixtures.scripted [fixtures.respond 404 "gone"]) (fixtures.stopped 7)
           fixtures.running "dev-1"
           (mkStatus "Failed" "Device not found in Sony system" "dev-1" "unhealthy"
                     0 None None 0 0 0 0)).
  right. left. reflexivity.
Defined.

(** X8.  One call of a provider method makes at most four [client.Do] calls
    (the attempts of its trace; what [net/http] sends by itself inside one
    such call, a followed redirect for instance, is not counted), and each
    backoff it waits is 100, 200 or 400 ms. *)
Theorem provider_method_issues_at_most_four_attempts `{RT : Runtime}
    (s : provider.SonyProvider) (env : Env) (clk : Clock)
    (resource : ForgeResource) (vendorID : string) (tr : list Event) :
  tr = snd (provider.Sony.Create s env clk resource)
  \/ tr = snd (provider.Sony.Read s env clk vendorID)
  \/ tr = snd (provider.Sony.Update s env clk resource)
  \/ tr = snd (provider.Sony.Delete s env vendorID) ->
  (length (client.attempts tr) <= 4)%nat
  /\ forall n d, EvBackoff n d ∈ tr ->
       d ∈ [100 * time.Millisecond; 200 * time.Millisecond; 400 * time.Millisecond].
Proof.
  intros [->|[->|[->| ->]]]; apply (oneCall_bounded env).
  - apply Create_oneCall.
  - apply Read_oneCall.
  - apply Update_oneCall.
  - apply Delete_oneCall.
Qed.

Lemma provider_method_issues_at_most_four_attempts_witness :
  (length (client.attempts
     (snd (@provider.Sony.Delete fixtures.stubRuntime fixtures.sony
             fixtures.unreachable "dev-1"))) <= 4)%nat.
Proof.
  destruct (@provider_method_issues_at_most_four_attempts fixtures.stubRuntime
              fixtures.sony fixtures.unreachable (fixtures.stopped 7)
              fixtures.running "dev-1"
              (snd (@provider.Sony.Delete fixtures.stubRuntime fixtures.sony
                      fixtures.unreachable "dev-1"))) as [Hlen _].
  - right. right. right. reflexivity.
  - exact Hlen.
Defined.

(** X9.  [buildResourceStatus] copies the vendor's device id and message,
    reports zero metrics when the vendor sends no stream status, and otherwise
    converts kbps to bps and seconds to nanoseconds exactly as long as the
    results fit 64 bits; an uptime that is not positive is reported as 0. *)
Theorem buildResourceStatus_converts_units
    (clk : Clock) (response : SonyDeviceResponse) :
  let st := provider.Sony.buildResourceStatus clk response in
  VendorID st = DeviceID response
  /\ Message st = SonyMessage response
  /\ (StreamStatus response = None ->
      (CurrentBitrate st, DroppedFrames st, ConnectionCount st, Uptime st) = (0, 0, 0, 0))
  /\ forall ss, StreamStatus response = Some ss ->
      DroppedFrames st = StreamDroppedFrames ss
      /\ ConnectionCount st = ViewerCount ss
      /\ (- 9223372036854775 <= StreamCurrentBitrate ss <= 9223372036854775 ->
          CurrentBitrate st = StreamCurrentBitrate ss * 1000)
      /\ (0 < UptimeSeconds ss <= 9223372036 ->
          Uptime st = UptimeSeconds ss * time.Second)
      /\ (UptimeSeconds ss <= 0 -> Uptime st = 0).
Proof.
  assert (Hwrap : forall z, - 2 ^ 63 <= z < 2 ^ 63 -> wrap64 z = z).
  { intros z Hz. unfold wrap64. rewrite Z.mod_small; lia. }
  intros st. subst st. unfold provider.Sony.buildResourceStatus.
  destruct (StreamStatus response) as [ss|] eqn:Hss.
  - repeat (destruct (decide _)); simpl;
      (split; [done|]); (split; [done|]); (split; [done|]);
      intros ss' [= <-]; (split; [done|]); (split; [done|]);
      (split; [intros Hb; apply Hwrap; lia|]);
      (split; [intros Hu; destruct (Z.gtb_spec (UptimeSeconds ss) 0); [|lia];
               apply Hwrap; unfold time.Second; lia
              |intros Hu; destruct (Z.gtb_spec (UptimeSeconds ss) 0); [lia|done]]).
  - repeat (destruct (decide _)); simpl; done.
Qed.

(** X10.  The phase table is exact: the phase is Failed exactly when the
    vendor reports "error" (and then the error count is 1, otherwise 0), it is
    Running exactly when the vendor reports "active", and it is Unknown
    exactly when the vendor reports none of its five states. *)
Theorem buildResourceStatus_phase_table
    (clk : Clock) (response : SonyDeviceResponse) :
  let st := provider.Sony.buildResourceStatus clk response in
  (Phase st = "Failed" <-> SonyStatus response = "error")
  /\ (ErrorCount st = 1 <-> SonyStatus response = "error")
  /\ (ErrorCount st = 0 <-> SonyStatus response <> "error")
  /\ (Phase st = "Running" <-> SonyStatus response = "active")
  /\ (HealthStatus st = "healthy" <-> SonyStatus response = "active")
  /\ (Phase st = "Unknown" <->
      SonyStatus response ∉ ["active"; "inactive"; "provisioning"; "error"; "maintenance"]).
Proof.
  intros st. subst st. unfold provider.Sony.buildResourceStatus.
  destruct (StreamStatus response);
    (destruct (decide (SonyStatus response = "active")) as [H1|H1];
     [rewrite H1
     |destruct (decide (SonyStatus response = "inactive")) as [H2|H2];
      [rewrite H2
      |destruct (decide (SonyStatus response = "provisioning")) as [H3|H3];
       [rewrite H3
       |destruct (decide (SonyStatus response = "error")) as [H4|H4];
        [rewrite H4
        |destruct (decide (SonyStatus response = "maintenance")) as [H5|H5];
         [rewrite H5|]]]]]);
    simpl; rewrite ?elem_of_cons, ?elem_of_nil; intuition congruence.
Qed.

(** ** Health checks *)

(** X11.  [HealthCheck] fails fast: whatever the vendor does, it puts at most
    one request on the wire and never waits; it reports healthy exactly when
    the URL parses and that one request is answered with status 200. *)
Theorem HealthCheck_probes_once `{RT : Runtime}
    (s : provider.SonyProvider) (env : Env) :
  (length (client.attempts (snd (health.HealthCheck s env))) <= 1)%nat
  /\ backoffs (snd (health.HealthCheck s env)) = []
  /\ (fst (health.HealthCheck s env) = None <->
      urlParseError (provider.BaseURL s +:+ "/health") = None
      /\ exists r, clientDo env 0 = DoResp r /\ StatusCode r = 200).
Proof.
  unfold health.HealthCheck, NewRequestWithContext.
  destruct (urlParseError _) as [e|]; simpl.
  { split; [lia|]. split; [done|]. split; [done|]. by intros [? _]. }
  destruct (clientDo env 0) as [e|r]; simpl.
  { split; [lia|]. split; [done|]. split; [done|]. by intros [_ (r & ? & _)]. }
  destruct (Z.eqb_spec (StatusCode r) 200) as [H200|H200]; simpl.
  - split; [lia|]. split; [done|]. split; [eauto|done].
  - split; [lia|]. split; [done|]. split; [done|].
    intros [_ (r' & [= <-] & ?)]. done.
Qed.

(** A 503 is not retried by the probe, where the executor would retry it. *)
Example HealthCheck_503_is_not_retried :
  let env := fixtures.scripted [fixtures.respond 503 "busy"; fixtures.respond 200 "ok"] in
  @health.HealthCheck fixtures.stubRuntime fixtures.sony env
  = (Some "Sony API unhealthy (status 503): busy",
     [EvDo 0 (mkRequest "GET" "http://localhost:9000/health"
                [("Authorization", "Bearer test-api-key")] None)])
  /\ client.attempts (snd (client.DoWithRetry env fixtures.getDevice 3)) = [0; 1].
Proof. by vm_compute. Qed.

(** X12.  The health endpoint answers 200 "healthy" exactly when the
    [HealthCheck] of every registered provider returns no error, and 503
    "unhealthy" otherwise; with no provider registered it answers 200. *)
Theorem HandleHealthCheck_200_iff_all_healthy
    (checks : gmap string (Env -> option string * list Event)) (envOf : string -> Env) :
  (health.HandleHealthCheck checks envOf = (200, "healthy")
   \/ health.HandleHealthCheck checks envOf = (503, "unhealthy"))
  /\ (fst (health.HandleHealthCheck checks envOf) = 200 <->
      forall name check, checks !! name = Some check -> fst (check (envOf name)) = None).
Proof.
  unfold health.HandleHealthCheck.
  set (f := fun (name : string) (check : Env -> option string * list Event)
                (healthy : bool) =>
              match fst (check (envOf name)) with
              | Some _ => false
              | None => healthy
              end).
  assert (Hfold : map_fold f true checks = true <->
                  map_Forall (fun name check => fst (check (envOf name)) = None) checks).
  { apply (map_fold_weak_ind
             (fun b m => b = true <->
                map_Forall (fun name check => fst (check (envOf name)) = None) m)).
    - split; [intros _; apply map_Forall_empty|done].
    - intros i x m r Hi IH. rewrite map_Forall_insert by done. unfold f.
      destruct (fst (x (envOf i))); [|by rewrite IH; intuition].
      split; [done|]. by intros [? _]. }
  destruct (map_fold f true checks); simpl.
  - split; [by left|]. split; [intros _; by apply Hfold|done].
  - split; [by right|]. split; [done|]. intros Hall.
    apply Hfold in Hall. done.
Qed.

(** ** Strings: lengths and prefixes *)

Lemma string_length_app (s1 s2 : string) :
  String.length (s1 +:+ s2) = (String.length s1 + String.length s2)%nat.
Proof. induction s1 as [|c s1 IH]; simpl; [done|]. by rewrite IH. Qed.

Lemma substring0_length (m : nat) (s : string) :
  String.length (String.substring 0 m s) = Nat.min m (String.length s).
Proof.
  revert s. induction m as [|m IH]; intros [|c s]; simpl; try done.
  by rewrite IH.
Qed.

Lemma substring0_app (p rest : string) :
  String.substring 0 (String.length p) (p +:+ rest) = p.
Proof.
  induction p as [|c p IH]; simpl; [by destruct rest|]. by rewrite IH.
Qed.

Lemma substring0_prefix (m : nat) (s : string) :
  exists rest, s = String.substring 0 m s +:+ rest.
Proof.
  revert s. induction m as [|m IH]; intros [|c s]; simpl.
  - by exists "".
  - by eexists.
  - by exists "".
  - destruct (IH s) as [rest Hrest]. exists rest. rewrite Hrest at 1. reflexivity.
Qed.

Lemma startsWith_spec (scheme url : string) :
  sonymap.startsWith (String.length scheme) scheme url = true
  <-> exists rest, url = scheme +:+ rest.
Proof.
  unfold sonymap.startsWith. rewrite andb_true_iff, Nat.leb_le, String.eqb_eq. split.
  - intros [_ Hsub]. destruct (substring0_prefix (String.length scheme) url) as [rest Hrest].
    exists rest. by rewrite Hsub in Hrest.
  - intros [rest ->]. rewrite string_length_app, substring0_app. split; [lia|done].
Qed.

(** ** Response validation *)

Lemma shownBody_bounded (body : string) :
  (String.length (validate.shownBody body) <= 515)%nat
  /\ String.substring 0 500 (validate.shownBody body) = String.substring 0 500 body
  /\ ((String.length body <= 500)%nat -> validate.shownBody body = body).
Proof.
  unfold validate.shownBody.
  destruct (Nat.ltb_spec 500 (String.length body)) as [Hlong|Hshort].
  - split; [|split; [|lia]].
    + rewrite string_length_app, substring0_length.
      change (String.length "... (truncated)") with 15%nat. lia.
    + pose proof (substring0_length 500 body) as Hlen.
      rewrite Nat.min_l in Hlen by lia.
      rewrite <- Hlen at 1. apply substring0_app.
  - split; [lia|]. done.
Qed.

(** X13.  [ValidateResponse] accepts exactly the responses with a status
    below 400 (a [nil] response is an error).  For any other response whose
    body can be read, the error text is the status code, the status line and
    the body cut to its first 500 bytes: a body of at most 500 bytes is shown
    whole, a longer one contributes 515 bytes at most. *)
Theorem ValidateResponse_accepts_below_400
    (statusLine : Response -> string) (resp : option Response) :
  (validate.ValidateResponse statusLine resp = None <->
   exists r, resp = Some r /\ StatusCode r < 400)
  /\ forall r body,
      resp = Some r -> 400 <= StatusCode r -> Body r = Ok body ->
      exists shown,
        validate.ValidateResponse statusLine resp
        = Some ("HTTP " +:+ pretty (StatusCode r) +:+ ": " +:+ statusLine r +:+
                " - Response body: " +:+ shown)
        /\ (String.length shown <= 515)%nat
        /\ String.substring 0 500 shown = String.substring 0 500 body
        /\ ((String.length body <= 500)%nat -> shown = body).
Proof.
  unfold validate.ValidateResponse. split.
  - destruct resp as [r|]; [|split; [done|by intros (? & ? & _)]].
    destruct (Z.ltb_spec (StatusCode r) 400) as [Hlt|Hge].
    + split; [eauto|done].
    + split; [by destruct (Body r)|]. intros (r' & [= <-] & ?). lia.
  - intros r body -> Hge Hbody.
    destruct (Z.ltb_spec (StatusCode r) 400) as [Hlt|_]; [lia|].
    rewrite Hbody. exists (validate.shownBody body).
    split; [done|]. apply shownBody_bounded.
Qed.

(** X14.  With a retry count that is not negative,
    [DoWithRetryAndValidation] returns a [nil] error exactly when it returns a
    response with a status below 400; it hands a response back only with a
    status below 500 (after retries are exhausted on a 5xx the response is
    dropped); and it makes the same requests as [DoWithRetry]. *)
Theorem DoWithRetryAndValidation_classifies
    (statusLine : Response -> string) (env : Env) (req : Request) (maxRetries : Z) :
  0 <= maxRetries ->
  let out := validate.DoWithRetryAndValidation statusLine env req maxRetries in
  (snd (fst out) = None <-> exists r, fst (fst out) = Some r /\ StatusCode r < 400)
  /\ (forall r, fst (fst out) = Some r -> StatusCode r < 500)
  /\ (fst (fst out) = None -> snd (fst out) <> None)
  /\ snd out = snd (client.DoWithRetry env req maxRetries).
Proof.
  intros Hpos out. subst out. unfold validate.DoWithRetryAndValidation.
  destruct (client.DoWithRetry env req maxRetries) as [[resp err] tr] eqn:E.
  destruct err as [e|]; simpl.
  { split; [split; [done|by intros (? & ? & _)]|]. done. }
  apply DoWithRetry_success_only in E as (r & n & tr0 & -> & Hlt & _ & ->); [|done].
  unfold validate.ValidateResponse.
  destruct (Z.ltb_spec (StatusCode r) 400) as [H4|H4]; simpl.
  - split; [split; [eauto|done]|]. split; [by intros ? [= <-]|]. done.
  - assert (Hsome : exists e,
               match Body r with
               | Ok bodyString =>
                   Some ("HTTP " +:+ pretty (StatusCode r) +:+ ": " +:+ statusLine r +:+
                         " - Response body: " +:+ validate.shownBody bodyString)
               | Err e =>
                   Some ("HTTP " +:+ pretty (StatusCode r) +:+ ": " +:+ statusLine r +:+
                         " (failed to read response body: " +:+ e +:+ ")")
               end = Some e) by (destruct (Body r); eauto).
    destruct Hsome as [e ->]. simpl.
    split; [split; [done|intros (r' & [= <-] & ?); lia]|].
    split; [by intros ? [= <-]|]. done.
Qed.

Lemma DoWithRetryAndValidation_classifies_witness :
  validate.DoWithRetryAndValidation worlds.statusText
    (fixtures.scripted [fixtures.respond 503 "busy"; fixtures.respond 404 "gone"])
    fixtures.getDevice 3
  = ((Some (mkResponse 404 (Ok "gone")),
      Some "HTTP 404: 404 status - Response body: gone"),
     [EvDo 0 fixtures.getDevice; EvCloseBody 0; EvBackoff 0 (100 * time.Millisecond);
      EvDo 1 fixtures.getDevice])
  /\ snd (validate.DoWithRetryAndValidation worlds.statusText
            (fixtures.scripted [fixtures.respond 503 "busy"; fixtures.respond 404 "gone"])
            fixtures.getDevice 3)
     = snd (client.DoWithRetry
              (fixtures.scripted [fixtures.respond 503 "busy"; fixtures.respond 404 "gone"])
              fixtures.getDevice 3).
Proof.
  split; [reflexivity|].
  apply (DoWithRetryAndValidation_classifies worlds.statusText
           (fixtures.scripted [fixtures.respond 503 "busy"; fixtures.respond 404 "gone"])
           fixtures.getDevice 3).
  lia.
Defined.

(** ** The provider's vocabulary maps *)

(** X15.  [mapResolutionToSony] and [mapCodecToSony] are idempotent: a value
    already in Sony's form passes through unchanged, so mapping twice is the
    same as mapping once; and a resolution or codec with no entry in the
    table is passed through as it is. *)
Theorem resolution_and_codec_maps_are_idempotent (resolution codec : string) :
  sonymap.mapResolutionToSony (sonymap.mapResolutionToSony resolution)
    = sonymap.mapResolutionToSony resolution
  /\ sonymap.mapCodecToSony (sonymap.mapCodecToSony codec) = sonymap.mapCodecToSony codec
  /\ (resolution ∉ ["SD"; "480p"; "HD"; "720p"; "FHD"; "1080p"; "4K"; "2160p"; "UHD";
                    "8K"; "4320p"] ->
      sonymap.mapResolutionToSony resolution = resolution)
  /\ (codec ∉ ["H.265/HEVC"; "HEVC"] -> sonymap.mapCodecToSony codec = codec).
Proof.
  split; [|split; [|split]].
  - unfold sonymap.mapResolutionToSony at 2 3.
    repeat (destruct (decide (resolution ∈ _)); [by vm_compute|]).
    unfold sonymap.mapResolutionToSony.
    repeat (destruct (decide (resolution ∈ _)); [done|]). done.
  - unfold sonymap.mapCodecToSony at 2 3.
    destruct (decide (codec ∈ _)); [by vm_compute|].
    unfold sonymap.mapCodecToSony. by destruct (decide (codec ∈ _)).
  - intros Hnot. unfold sonymap.mapResolutionToSony.
    repeat (destruct (decide (resolution ∈ _)) as [Hin|_];
            [exfalso; apply Hnot; revert Hin;
             rewrite !elem_of_cons, !elem_of_nil; tauto|]).
    done.
  - intros Hnot. unfold sonymap.mapCodecToSony.
    by destruct (decide (codec ∈ _)).
Qed.

(** X16.  [mapLatencyModeToSony] answers one of ultra_low, low and normal:
    the three modes low, normal and high go to three different Sony modes,
    and every other input, the empty string included, goes to low.  Unlike
    the other maps it is not idempotent. *)
Theorem latency_map_has_three_values (mode : string) :
  sonymap.mapLatencyModeToSony mode ∈ ["ultra_low"; "low"; "normal"]
  /\ (sonymap.mapLatencyModeToSony mode = "ultra_low" <-> mode = "low")
  /\ (sonymap.mapLatencyModeToSony mode = "normal" <-> mode = "high")
  /\ (sonymap.mapLatencyModeToSony mode = "low" <-> mode <> "low" /\ mode <> "high")
  /\ sonymap.mapLatencyModeToSony (sonymap.mapLatencyModeToSony "low")
     <> sonymap.mapLatencyModeToSony "low".
Proof.
  unfold sonymap.mapLatencyModeToSony at 1 2 3 4.
  destruct (decide (mode = "low")) as [->|Hlow];
    [|destruct (decide (mode = "normal")) as [->|Hnormal];
      [|destruct (decide (mode = "high")) as [->|Hhigh]]];
    rewrite !elem_of_cons, elem_of_nil;
    (split; [tauto|]); (split; [done|]); (split; [done|]);
    (split; [intuition congruence|]); by vm_compute.
Qed.

Lemma detect_cases (url : string) :
  (sonymap.startsWith 7 "rtmp://" url = true /\ sonymap.detectStreamProtocol url = "RTMP")
  \/ (sonymap.startsWith 6 "srt://" url = true /\ sonymap.detectStreamProtocol url = "SRT")
  \/ (sonymap.startsWith 7 "rtsp://" url = true /\ sonymap.detectStreamProtocol url = "RTSP")
  \/ (sonymap.startsWith 6 "ndi://" url = true /\ sonymap.detectStreamProtocol url = "NDI")
  \/ (sonymap.startsWith 7 "rtmp://" url = false /\ sonymap.startsWith 6 "srt://" url = false
      /\ sonymap.startsWith 7 "rtsp://" url = false /\ sonymap.startsWith 6 "ndi://" url = false
      /\ sonymap.detectStreamProtocol url = "RTMP").
Proof.
  unfold sonymap.detectStreamProtocol.
  destruct (sonymap.startsWith 7 "rtmp://" url); [by left|].
  destruct (sonymap.startsWith 6 "srt://" url); [by right; left|].
  destruct (sonymap.startsWith 7 "rtsp://" url); [by right; right; left|].
  destruct (sonymap.startsWith 6 "ndi://" url); [by right; right; right; left|].
  by right; right; right; right.
Qed.

(** X17.  [detectStreamProtocol] answers SRT, RTSP or NDI exactly for the
    URLs that begin with "srt://", "rtsp://" or "ndi://" (in lower case), and
    RTMP for every other URL: those beginning with "rtmp://", but also the
    empty string, URLs shorter than a scheme and unknown schemes. *)
Theorem detectStreamProtocol_by_prefix (url : string) :
  sonymap.detectStreamProtocol url ∈ ["RTMP"; "SRT"; "RTSP"; "NDI"]
  /\ (sonymap.detectStreamProtocol url = "SRT" <-> exists rest, url = "srt://" +:+ rest)
  /\ (sonymap.detectStreamProtocol url = "RTSP" <-> exists rest, url = "rtsp://" +:+ rest)
  /\ (sonymap.detectStreamProtocol url = "NDI" <-> exists rest, url = "ndi://" +:+ rest).
Proof.
  pose proof (startsWith_spec "rtmp://" url) as Hrtmp.
  pose proof (startsWith_spec "srt://" url) as Hsrt.
  pose proof (startsWith_spec "rtsp://" url) as Hrtsp.
  pose proof (startsWith_spec "ndi://" url) as Hndi.
  change (String.length "rtmp://") with 7%nat in Hrtmp.
  change (String.length "srt://") with 6%nat in Hsrt.
  change (String.length "rtsp://") with 7%nat in Hrtsp.
  change (String.length "ndi://") with 6%nat in Hndi.
  rewrite !elem_of_cons, elem_of_nil.
  destruct (detect_cases url)
    as [[H ->]|[[H ->]|[[H ->]|[[H ->]|(H1 & H2 & H3 & H4 & ->)]]]].
  - apply Hrtmp in H as [rest ->].
    repeat split; try tauto; try done; by intros [rest' [=]].
  - pose proof H as H'. apply Hsrt in H' as [rest ->].
    repeat split; try tauto; try done; try (by intros [rest' [=]]); eauto.
  - pose proof H as H'. apply Hrtsp in H' as [rest ->].
    repeat split; try tauto; try done; try (by intros [rest' [=]]); eauto.
  - pose proof H as H'. apply Hndi in H' as [rest ->].
    repeat split; try tauto; try done; try (by intros [rest' [=]]); eauto.
  - repeat split; try tauto; try done; intros Hpre.
    + apply Hsrt in Hpre. congruence.
    + apply Hrtsp in Hpre. congruence.
    + apply Hndi in Hpre. congruence.
Qed.

Example detectStreamProtocol_edges :
  map sonymap.detectStreamProtocol ["rtmp://a/b"; "srt://h:9000"; "rtsp://cam"; "ndi://x";
                                   ""; "srt:/"; "SRT://h"; "https://h"]
  = ["RTMP"; "SRT"; "RTSP"; "NDI"; "RTMP"; "RTMP"; "RTMP"; "RTMP"].
Proof. reflexivity. Qed.

(** ** The resource handlers: validation, identity, fallback *)

Lemma generateResourceID_not_empty (now : Z) : controller.generateResourceID now <> "".
Proof. unfold controller.generateResourceID. cbv [String.append]. discriminate. Qed.

(** What [HandleCreateResource] does once the request is valid and its
    vendor type has a provider. *)
Lemma Create_accepted (c : controller.Controller) resource clk env p :
  Name resource <> "" ->
  Type_ resource <> "" ->
  VendorType (Spec resource) <> "" ->
  controller.Providers c !! VendorType (Spec resource) = Some p ->
  exists status,
    let stored := set_Status status (controller.pendingRecord clk resource) in
    controller.HandleCreateResource c (Ok resource) clk env
    = {| controller.response := controller.mkHTTP 201 (controller.ResourceBody stored);
         controller.write := Some (controller.Put (ID stored) stored);
         controller.trace :=
           EvCall OpCreate (ID stored)
             :: snd (provider.Create p env clk (controller.pendingRecord clk resource)) |}
    /\ match fst (provider.Create p env clk (controller.pendingRecord clk resource)) with
       | Ok st => status = st
       | Err e =>
           status = set_Message ("Vendor API error: " +:+ e)
                      (set_Phase "Failed" (Status (controller.pendingRecord clk resource)))
       end.
Proof.
  intros Hname Htype Hvendor Hp. unfold controller.HandleCreateResource.
  destruct (decide (Name resource = "")); [done|].
  destruct (decide (Type_ resource = "")); [done|].
  destruct (decide (VendorType (Spec resource) = "")); [done|].
  cbn zeta.
  change (set_Status (set_Message "Resource creation initiated" _) _)
    with (controller.pendingRecord clk resource).
  change (VendorType (Spec (controller.pendingRecord clk resource)))
    with (VendorType (Spec resource)).
  rewrite Hp.
  destruct (provider.Create p env clk (controller.pendingRecord clk resource))
    as [[st|e] tr]; simpl; eexists; (split; [reflexivity|done]).
Qed.

(** A create either stops at a 400 reply, for one of the five reasons, or
    is accepted. *)
Lemma Create_cases (c : controller.Controller) (decoded : Result ForgeResource) clk env :
  ((exists msg, controller.HandleCreateResource c decoded clk env = controller.reply 400 msg)
   /\ forall resource,
        decoded = Ok resource -> Name resource <> "" -> Type_ resource <> "" ->
        VendorType (Spec resource) <> "" ->
        controller.Providers c !! VendorType (Spec resource) = None)
  \/ exists resource p,
        decoded = Ok resource /\ Name resource <> "" /\ Type_ resource <> ""
        /\ VendorType (Spec resource) <> ""
        /\ controller.Providers c !! VendorType (Spec resource) = Some p.
Proof.
  destruct decoded as [resource|e].
  2:{ left. split; [by eexists|]. by intros ? [=]. }
  unfold controller.HandleCreateResource.
  destruct (decide (Name resource = "")) as [Hname|Hname].
  { left. split; [by eexists|]. by intros ? [= <-]. }
  destruct (decide (Type_ resource = "")) as [Htype|Htype].
  { left. split; [by eexists|]. by intros ? [= <-]. }
  destruct (decide (VendorType (Spec resource) = "")) as [Hvendor|Hvendor].
  { left. split; [by eexists|]. by intros ? [= <-]. }
  cbn zeta.
  change (set_Status (set_Message "Resource creation initiated" _) _)
    with (controller.pendingRecord clk resource).
  change (VendorType (Spec (controller.pendingRecord clk resource)))
    with (VendorType (Spec resource)).
  destruct (controller.Providers c !! VendorType (Spec resource)) as [p|] eqn:Hp.
  - right. by exists resource, p.
  - left. split; [by eexists|]. by intros ? [= <-].
Qed.

(** X18.  [HandleCreateResource] answers 400 or 201.  It answers 201 exactly
    when the body decodes, name, type and vendor type are not empty and a
    provider is registered for the vendor type; on 400 it writes nothing to
    the store and makes no vendor call. *)
Theorem Create_validates_before_calling_the_vendor
    (c : controller.Controller) (decoded : Result ForgeResource) (clk : Clock) (env : Env) :
  let h := controller.HandleCreateResource c decoded clk env in
  (controller.Code (controller.response h) = 400
   \/ controller.Code (controller.response h) = 201)
  /\ (controller.Code (controller.response h) = 400 ->
      controller.write h = None /\ controller.trace h = [])
  /\ (controller.Code (controller.response h) = 201 <->
      exists resource,
        decoded = Ok resource /\ Name resource <> "" /\ Type_ resource <> ""
        /\ VendorType (Spec resource) <> ""
        /\ is_Some (controller.Providers c !! VendorType (Spec resource))).
Proof.
  intros h. subst h.
  destruct (Create_cases c decoded clk env)
    as [[[msg ->] Hnone]|(resource & p & -> & Hname & Htype & Hvendor & Hp)].
  - simpl. split; [by left|]. split; [done|]. split; [done|].
    intros (resource & -> & Hname & Htype & Hvendor & [p Hp]).
    rewrite (Hnone resource) in Hp; done.
  - destruct (Create_accepted c resource clk env p Hname Htype Hvendor Hp)
      as (status & -> & _). simpl.
    split; [by right|]. split; [done|]. split; [|done].
    intros _. exists resource. rewrite Hp. eauto.
Qed.

(** X19.  The record a create stores is filed under the id generated from
    the clock, whatever id, timestamps or status the request body carried;
    its name, type, namespace and spec are those submitted; and its status is
    the provider's on success, or the submitted status with phase Failed and
    the vendor error as message on failure. *)
Theorem Create_assigns_the_id_and_keeps_the_description
    (c : controller.Controller) (resource : ForgeResource) (clk : Clock) (env : Env)
    (k : string) (stored : ForgeResource) :
  controller.write (controller.HandleCreateResource c (Ok resource) clk env)
    = Some (controller.Put k stored) ->
  k = ID stored
  /\ ID stored = "res-" +:+ pretty (clk AtResourceID)
  /\ k <> ""
  /\ (Name stored, Type_ stored, Namespace stored, Spec stored)
     = (Name resource, Type_ resource, Namespace resource, Spec resource)
  /\ (CreatedAt stored, UpdatedAt stored) = (Some (clk AtCreatedAt), Some (clk AtUpdatedAt))
  /\ forall p, controller.Providers c !! VendorType (Spec resource) = Some p ->
       match fst (provider.Create p env clk (controller.pendingRecord clk resource)) with
       | Ok st => Status stored = st
       | Err e =>
           Phase (Status stored) = "Failed"
           /\ Message (Status stored) = "Vendor API error: " +:+ e
           /\ VendorID (Status stored) = VendorID (Status resource)
       end.
Proof.
  intros Hw.
  destruct (Create_cases c (Ok resource) clk env)
    as [[[msg E] _]|(resource' & p & [= <-] & Hname & Htype & Hvendor & Hp)].
  { rewrite E in Hw. discriminate. }
  destruct (Create_accepted c resource clk env p Hname Htype Hvendor Hp)
    as (status & E & Hstatus). cbn zeta in E. rewrite E in Hw. simpl in Hw.
  inversion Hw; subst k stored. clear Hw. simpl.
  split; [done|]. split; [done|]. split; [apply generateResourceID_not_empty|].
  split; [done|]. split; [done|].
  intros p' Hp'. rewrite Hp in Hp'. inversion Hp'; subst p'.
  destruct (fst (provider.Create p env clk (controller.pendingRecord clk resource)));
    by subst status.
Qed.

Lemma Create_assigns_the_id_and_keeps_the_description_witness :
  let h := controller.HandleCreateResource fixtures.fresh
             (Ok (set_ID "chosen-by-client" (fixtures.camera "cam-1")))
             (fixtures.stopped 1700000000000000000)
             (fixtures.scripted [fixtures.respond 201 "dev-1"]) in
  exists stored,
    controller.write h = Some (controller.Put "res-1700000000000000000" stored)
    /\ ID stored = "res-1700000000000000000"
    /\ Name stored = "cam-1".
Proof.
  intros h. eexists. split; [reflexivity|].
  destruct (Create_assigns_the_id_and_keeps_the_description fixtures.fresh
              (set_ID "chosen-by-client" (fixtures.camera "cam-1"))
              (fixtures.stopped 1700000000000000000)
              (fixtures.scripted [fixtures.respond 201 "dev-1"])
              "res-1700000000000000000"
              _ eq_refl) as (_ & Hid & _ & Hdesc & _).
  split; [exact Hid|]. by inversion Hdesc.
Defined.

(** What [HandleGetResource] does with a stored record whose provider is
    registered. *)
Lemma Get_cases (c : controller.Controller) id resource p clk env :
  id <> "" ->
  controller.ResourceDB c !! id = Some resource ->
  controller.Providers c !! VendorType (Spec resource) = Some p ->
  let h := controller.HandleGetResource c id clk env in
  (VendorID (Status resource) = "" /\
   h = {| controller.response := controller.mkHTTP 200 (controller.ResourceBody resource);
          controller.write := None; controller.trace := [] |})
  \/ (VendorID (Status resource) <> "" /\
      exists res tr,
        provider.Read p env clk (VendorID (Status resource)) = (res, tr)
        /\ controller.trace h = EvCall OpRead (VendorID (Status resource)) :: tr
        /\ match res with
           | Err e =>
               controller.response h = controller.mkHTTP 200 (controller.ResourceBody resource)
               /\ controller.write h = None
           | Ok status =>
               let fresh := set_UpdatedAt (clk AtUpdatedAt) (set_Status status resource) in
               controller.response h = controller.mkHTTP 200 (controller.ResourceBody fresh)
               /\ controller.write h = Some (controller.Put id fresh)
           end).
Proof.
  intros Hid Hdb Hp h. subst h. unfold controller.HandleGetResource.
  destruct (decide (id = "")); [done|].
  rewrite Hdb, Hp.
  destruct (decide (VendorID (Status resource) = "")) as [Hv|Hv]; [by left|].
  right. split; [done|].
  destruct (provider.Read p env clk (VendorID (Status resource))) as [[st|e] tr];
    by eexists _, _.
Qed.

(** X20.  The status refresh of a GET is best effort: when the record has no
    vendor id, or the provider's [Read] fails, the handler still answers 200
    with the record exactly as stored and writes nothing; without a vendor id
    it does not call the provider at all. *)
Theorem Get_falls_back_to_the_stored_record
    (c : controller.Controller) (id : string) (resource : ForgeResource)
    (p : provider.VendorProvider) (clk : Clock) (env : Env) :
  id <> "" ->
  controller.ResourceDB c !! id = Some resource ->
  controller.Providers c !! VendorType (Spec resource) = Some p ->
  VendorID (Status resource) = ""
  \/ (exists e, fst (provider.Read p env clk (VendorID (Status resource))) = Err e) ->
  let h := controller.HandleGetResource c id clk env in
  controller.response h = controller.mkHTTP 200 (controller.ResourceBody resource)
  /\ controller.write h = None
  /\ controller.served c h = c
  /\ (VendorID (Status resource) = "" -> controller.trace h = []).
Proof.
  intros Hid Hdb Hp Hwhy h.
  assert (Hsame : controller.write h = None -> controller.served c h = c).
  { intros Hw. unfold controller.served. rewrite Hw. by destruct c. }
  pose proof (Get_cases c id resource p clk env Hid Hdb Hp) as Hc.
  cbn zeta in Hc. fold h in Hc.
  destruct Hc as [[Hv E]|(Hv & res & tr & Hread & Htr & Hres)].
  - rewrite E in *. simpl in *. repeat split; try done. by apply Hsame.
  - destruct Hwhy as [Hv'|[e He]]; [done|].
    rewrite Hread in He. simpl in He. subst res.
    destruct Hres as [Hresp Hw]. repeat split; try done. by apply Hsame.
Qed.

Lemma Get_falls_back_to_the_stored_record_witness :
  let c := fixtures.holding fixtures.running in
  let h := controller.HandleGetResource c "res-1" (fixtures.stopped 9) fixtures.unreachable in
  controller.response h = controller.mkHTTP 200 (controller.ResourceBody fixtures.running)
  /\ controller.write h = None
  /\ length (client.attempts (controller.trace h)) = 4%nat.
Proof.
  intros c h.
  destruct (Get_falls_back_to_the_stored_record c "res-1" fixtures.running
              (@provider.SonyVendorProvider fixtures.stubRuntime fixtures.sony)
              (fixtures.stopped 9) fixtures.unreachable)
    as (Hresp & Hw & _).
  - discriminate.
  - reflexivity.
  - reflexivity.
  - right. eexists. reflexivity.
  - split; [exact Hresp|]. split; [exact Hw|]. reflexivity.
Defined.

(** X21.  GET and DELETE of an id the store does not hold answer 404 (400
    when the id is empty), leave the store as it is and make no vendor call. *)
Theorem unknown_id_is_not_found
    (c : controller.Controller) (id : string) (clk : Clock) (env : Env) :
  controller.ResourceDB c !! id = None ->
  let code := if decide (id = "") then 400 else 404 in
  (exists msg, controller.HandleGetResource c id clk env = controller.reply code msg)
  /\ (exists msg, controller.HandleDeleteResource c id env = controller.reply code msg)
  /\ controller.served c (controller.HandleGetResource c id clk env) = c
  /\ controller.served c (controller.HandleDeleteResource c id env) = c.
Proof.
  intros Hdb code. subst code.
  unfold controller.HandleGetResource, controller.HandleDeleteResource.
  destruct (decide (id = "")); [|rewrite Hdb];
    (split; [by eexists|]); (split; [by eexists|]); by destruct c.
Qed.

Lemma unknown_id_is_not_found_witness :
  controller.HandleDeleteResource fixtures.fresh "res-404" fixtures.unreachable
  = controller.reply 404 "resource not found".
Proof.
  destruct (unknown_id_is_not_found fixtures.fresh "res-404" (fixtures.stopped 9)
              fixtures.unreachable) as (_ & [msg E] & _).
  - reflexivity.
  - rewrite E. vm_compute in E. by inversion E.
Defined.

(** ** Requests served one after another *)

Lemma Post_write (c : controller.Controller) decoded clk env w :
  controller.write (controller.HandleCreateResource c decoded clk env) = Some w ->
  exists resource status,
    decoded = Ok resource /\ Name resource <> "" /\ Type_ resource <> ""
    /\ is_Some (controller.Providers c !! VendorType (Spec resource))
    /\ w = controller.Put (controller.generateResourceID (clk AtResourceID))
             (set_Status status (controller.pendingRecord clk resource)).
Proof.
  intros Hw.
  destruct (Create_cases c decoded clk env)
    as [[[msg E] _]|(resource & p & -> & Hname & Htype & Hvendor & Hp)].
  { rewrite E in Hw. discriminate. }
  destruct (Create_accepted c resource clk env p Hname Htype Hvendor Hp)
    as (status & E & _). cbn zeta in E. rewrite E in Hw. simpl in Hw.
  inversion Hw; subst w. exists resource, status. rewrite Hp. eauto 10.
Qed.

Lemma Get_write (c : controller.Controller) id clk env w :
  controller.write (controller.HandleGetResource c id clk env) = Some w ->
  exists resource status,
    controller.ResourceDB c !! id = Some resource
    /\ w = controller.Put id (set_UpdatedAt (clk AtUpdatedAt) (set_Status status resource)).
Proof.
  unfold controller.HandleGetResource.
  destruct (decide (id = "")); [done|].
  destruct (controller.ResourceDB c !! id) as [resource|]; [|done].
  destruct (controller.Providers c !! VendorType (Spec resource)) as [p|]; [|done].
  destruct (decide (VendorID (Status resource) = "")); [done|].
  destruct (provider.Read p env clk (VendorID (Status resource))) as [[st|e] tr];
    simpl; [|done].
  intros [= <-]. by eexists _, _.
Qed.

Lemma Del_write (c : controller.Controller) id env w :
  controller.write (controller.HandleDeleteResource c id env) = Some w ->
  w = controller.Remove id.
Proof.
  unfold controller.HandleDeleteResource.
  destruct (decide (id = "")); [done|].
  destruct (controller.ResourceDB c !! id) as [resource|]; [|done].
  destruct (controller.Providers c !! VendorType (Spec resource)) as [p|]; [|done].
  destruct (decide (VendorID (Status resource) = "")); [by intros [= <-]|].
  destruct (provider.Delete p env (VendorID (Status resource))) as [[e|] tr];
    simpl; [done|]. by intros [= <-].
Qed.


Lemma serve_Providers (c : controller.Controller) (a : lifecycle.Arrival) :
  controller.Providers (lifecycle.serve c a) = controller.Providers c.
Proof. reflexivity. Qed.

Lemma serve_wellKept (c : controller.Controller) (a : lifecycle.Arrival) :
  lifecycle.wellKept c -> lifecycle.wellKept (lifecycle.serve c a).
Proof.
  intros Hc k r. unfold lifecycle.serve, controller.served. simpl.
  destruct (controller.write (lifecycle.handle c a)) as [w|] eqn:Hw; simpl; [|apply Hc].
  unfold lifecycle.handle in Hw. destruct (lifecycle.call a) as [decoded|id|id].
  - apply Post_write in Hw
      as (resource & status & -> & Hname & Htype & Hp & ->). simpl.
    destruct (decide (controller.generateResourceID (lifecycle.clockOf a AtResourceID) = k))
      as [<-|Hne].
    + rewrite lookup_insert_eq. intros [= <-]. simpl.
      split; [done|]. split; [apply generateResourceID_not_empty|]. done.
    + rewrite lookup_insert_ne by done. apply Hc.
  - apply Get_write in Hw as (resource & status & Hdb & ->). simpl.
    destruct (decide (id = k)) as [<-|Hne].
    + rewrite lookup_insert_eq. intros [= <-]. simpl. by apply Hc.
    + rewrite lookup_insert_ne by done. apply Hc.
  - apply Del_write in Hw as ->. simpl.
    intros Hk. apply lookup_delete_Some in Hk as [_ Hk]. by apply Hc.
Qed.

Lemma run_wellKept (c : controller.Controller) (arrivals : list lifecycle.Arrival) :
  lifecycle.wellKept c -> lifecycle.wellKept (lifecycle.run c arrivals).
Proof.
  revert c. induction arrivals as [|a arrivals IH]; intros c Hc; [done|].
  simpl. apply IH. by apply serve_wellKept.
Qed.

(** X22.  Whatever requests the controller has served since it started, one
    after another, every record of its store is filed under its own id, has
    a name, a type and an id that are not empty, and names a vendor type with
    a registered provider; so a GET never answers "provider not configured":
    its status code is 200, 400 or 404. *)
Theorem store_stays_well_kept `{RT : Runtime}
    (envURL envKey : string) (arrivals : list lifecycle.Arrival) :
  let c := lifecycle.run (controller.NewController envURL envKey) arrivals in
  lifecycle.wellKept c
  /\ controller.Providers c = controller.Providers (controller.NewController envURL envKey)
  /\ forall id clk env,
      controller.Code (controller.response (controller.HandleGetResource c id clk env))
      ∈ [200; 400; 404].
Proof.
  intros c.
  assert (Hkept : lifecycle.wellKept c).
  { apply run_wellKept. intros k r Hk. simpl in Hk. by rewrite lookup_empty in Hk. }
  split; [exact Hkept|]. split.
  - clear Hkept. subst c. generalize (controller.NewController envURL envKey).
    induction arrivals as [|a arrivals IH]; intros c0; [done|].
    change (lifecycle.run c0 (a :: arrivals))
      with (lifecycle.run (lifecycle.serve c0 a) arrivals).
    rewrite IH. apply serve_Providers.
  - intros id clk env. rewrite !elem_of_cons.
    unfold controller.HandleGetResource.
    destruct (decide (id = "")) as [|Hid]; [simpl; tauto|].
    destruct (controller.ResourceDB c !! id) as [resource|] eqn:Hdb; [|simpl; tauto].
    destruct (Hkept id resource Hdb) as (_ & _ & _ & _ & [p Hp]).
    rewrite Hp.
    destruct (decide (VendorID (Status resource) = "")); [simpl; tauto|].
    destruct (provider.Read p env clk (VendorID (Status resource))) as [[st|e] tr];
      simpl; tauto.
Qed.





(** ** The mock vendor *)

Lemma generateDeviceID_not_empty (now drawn : Z) : vendorapi.generateDeviceID now drawn <> "".
Proof. unfold vendorapi.generateDeviceID. cbv [String.append]. discriminate. Qed.

(** X25.  The mock vendor registers a device only for a request that decodes
    and names a device and a model: otherwise it answers 400 and its table is
    unchanged.  On success it answers 201 with an active device filed under
    the generated id, a GET of that id returns the same device with 200, no
    other device is touched, and the provider reads the answer as phase
    Running with that id as vendor id. *)
Theorem mock_create_registers_an_active_device
    (devices : gmap string SonyDeviceResponse)
    (decoded : Result vendorapi.SonyDeviceRequest) (now drawn : Z) :
  let out := vendorapi.HandleCreateDevice devices decoded now drawn in
  (fst (snd out) = 400 /\ fst out = devices
   /\ forall req, decoded = Ok req ->
        vendorapi.DeviceName req = "" \/ vendorapi.Model req = "")
  \/ (exists req device,
        decoded = Ok req /\ vendorapi.DeviceName req <> "" /\ vendorapi.Model req <> ""
        /\ snd out = (201, vendorapi.Device device)
        /\ DeviceID device = vendorapi.generateDeviceID now drawn
        /\ SonyStatus device = "active"
        /\ vendorapi.HandleGetDevice (fst out) (DeviceID device)
           = (fst out, (200, vendorapi.Device device))
        /\ (forall k, k <> DeviceID device -> fst out !! k = devices !! k)
        /\ forall clk,
            Phase (provider.Sony.buildResourceStatus clk device) = "Running"
            /\ VendorID (provider.Sony.buildResourceStatus clk device) = DeviceID device).
Proof.
  intros out. subst out. unfold vendorapi.HandleCreateDevice.
  destruct decoded as [req|e]; [|left; by split; [|split; [|intros ? [=]]]].
  destruct (decide (vendorapi.DeviceName req = "")) as [Hname|Hname].
  { left. split; [done|]. split; [done|]. intros ? [= <-]. by left. }
  destruct (decide (vendorapi.Model req = "")) as [Hmodel|Hmodel].
  { left. split; [done|]. split; [done|]. intros ? [= <-]. by right. }
  right. eexists req, _. simpl.
  split; [done|]. split; [done|]. split; [done|]. split; [reflexivity|].
  split; [done|]. split; [done|]. split.
  - unfold vendorapi.HandleGetDevice.
    destruct (decide (vendorapi.generateDeviceID now drawn = "")) as [Hempty|_];
      [by apply generateDeviceID_not_empty in Hempty|].
    by rewrite lookup_insert_eq.
  - split; [intros k Hk; by rewrite lookup_insert_ne|]. done.
Qed.

(** X26.  Deleting from the mock vendor: for an id that is not empty the
    answer is 204 exactly when the device was registered and 404 otherwise;
    afterwards the device is absent, a GET of it answers 404, a second DELETE
    answers 404 and changes nothing, and no other device is touched.  Both
    answers are among those the provider's [Delete] takes as success. *)
Theorem mock_delete_then_absent
    (devices : gmap string SonyDeviceResponse) (deviceID : string) :
  deviceID <> "" ->
  let first := vendorapi.HandleDeleteDevice devices deviceID in
  let second := vendorapi.HandleDeleteDevice (fst first) deviceID in
  (fst (snd first) = 204 <-> is_Some (devices !! deviceID))
  /\ (fst (snd first) = 404 <-> devices !! deviceID = None)
  /\ fst (snd first) ∈ [204; 200; 404]
  /\ fst first !! deviceID = None
  /\ (forall k, k <> deviceID -> fst first !! k = devices !! k)
  /\ vendorapi.HandleGetDevice (fst first) deviceID
     = (fst first, (404, vendorapi.Error "device not found"))
  /\ second = (fst first, (404, vendorapi.Error "device not found")).
Proof.
  intros Hid first second. subst first second.
  unfold vendorapi.HandleDeleteDevice at 2 3 4 5 6 7 8, vendorapi.HandleGetDevice.
  unfold vendorapi.HandleDeleteDevice at 2.
  destruct (decide (deviceID = "")); [done|].
  rewrite !elem_of_cons.
  destruct (devices !! deviceID) as [device|] eqn:Hdev; simpl.
  - unfold vendorapi.HandleDeleteDevice.
    destruct (decide (deviceID = "")); [done|].
    rewrite Hdev. simpl. rewrite lookup_delete_eq.
    split; [by split; eauto|]. split; [done|]. split; [tauto|]. split; [done|].
    split; [intros k Hk; by rewrite lookup_delete_ne|]. done.
  - unfold vendorapi.HandleDeleteDevice.
    destruct (decide (deviceID = "")); [done|].
    rewrite Hdev. simpl. rewrite Hdev.
    split; [split; [done|by intros [? ?]]|]. split; [done|]. split; [tauto|]. done.
Qed.

Lemma mock_delete_then_absent_witness :
  let devices : gmap string SonyDeviceResponse :=
    {[ "sony-dev-1-0042" := mkSonyResponse "sony-dev-1-0042" "active" "ok" None ]} in
  fst (snd (vendorapi.HandleDeleteDevice devices "sony-dev-1-0042")) = 204
  /\ vendorapi.HandleDeleteDevice
       (fst (vendorapi.HandleDeleteDevice devices "sony-dev-1-0042")) "sony-dev-1-0042"
     = (∅, (404, vendorapi.Error "device not found")).
Proof.
  intros devices.
  destruct (mock_delete_then_absent devices "sony-dev-1-0042")
    as (H204 & _ & _ & _ & _ & _ & Hsecond).
  - discriminate.
  - split; [apply H204; by eexists|]. rewrite Hsecond. by vm_compute.
Defined.

(** ** Resource ids *)

Lemma generateResourceID_inj (a b : Z) :
  controller.generateResourceID a = controller.generateResourceID b -> a = b.
Proof.
  unfold controller.generateResourceID. cbv [String.append]. intros [= E].
  by apply (inj pretty) in E.
Qed.

(** X27.  Ids are as distinct as the clock readings they are made from: two
    creates whose readings at [generateResourceID] differ file their records
    under different ids, and the store holds both records once both writes
    are committed, in either order. *)
Theorem creates_at_distinct_nanoseconds_get_distinct_ids
    (c1 c2 : controller.Controller) (d1 d2 : Result ForgeResource)
    (clk1 clk2 : Clock) (env1 env2 : Env) (k1 k2 : string) (r1 r2 : ForgeResource)
    (db : gmap string ForgeResource) :
  clk1 AtResourceID <> clk2 AtResourceID ->
  controller.write (controller.HandleCreateResource c1 d1 clk1 env1)
    = Some (controller.Put k1 r1) ->
  controller.write (controller.HandleCreateResource c2 d2 clk2 env2)
    = Some (controller.Put k2 r2) ->
  k1 <> k2
  /\ ID r1 <> ID r2
  /\ forall w w',
      (w, w') = (Some (controller.Put k1 r1), Some (controller.Put k2 r2))
      \/ (w, w') = (Some (controller.Put k2 r2), Some (controller.Put k1 r1)) ->
      controller.commit w' (controller.commit w db) !! k1 = Some r1
      /\ controller.commit w' (controller.commit w db) !! k2 = Some r2.
Proof.
  intros Hclk Hw1 Hw2.
  apply Post_write in Hw1 as (res1 & st1 & _ & _ & _ & _ & [= -> ->]).
  apply Post_write in Hw2 as (res2 & st2 & _ & _ & _ & _ & [= -> ->]).
  assert (Hne : controller.generateResourceID (clk1 AtResourceID)
                <> controller.generateResourceID (clk2 AtResourceID)).
  { intros E. by apply generateResourceID_inj in E. }
  split; [done|]. split; [done|].
  intros w w' [[= -> ->]|[= -> ->]]; simpl.
  - split; [rewrite lookup_insert_ne by done|]; apply lookup_insert_eq.
  - split; [|rewrite lookup_insert_ne by done]; apply lookup_insert_eq.
Qed.

Lemma creates_at_distinct_nanoseconds_get_distinct_ids_witness :
  "res-1700000000000000000" <> "res-1700000000000000001".
Proof.
  eapply (creates_at_distinct_nanoseconds_get_distinct_ids
            fixtures.fresh fixtures.fresh
            (Ok (fixtures.camera "cam-1")) (Ok (fixtures.camera "cam-2"))
            (fixtures.stopped 1700000000000000000) (fixtures.stopped 1700000000000000001)
            (fixtures.scripted [fixtures.respond 201 "dev-1"])
            (fixtures.scripted [fixtures.respond 201 "dev-2"])
            "res-1700000000000000000" "res-1700000000000000001" _ _ ∅).
  - discriminate.
  - reflexivity.
  - reflexivity.
Defined.
